(** * WorkTools: Whisper transcription front ends

    A shallow embedding of [VoicetoText.py] (the Tk application
    [WhisperTranscriptionApp] and the command line functions) and of
    [app.py] (the Flask endpoint), followed by the properties of the
    orchestration and of the output serialization.

    Conventions of the embedding.
    - A Python [str] is a [string]; a character is an [ascii].
    - A Python [float] is a rational [Q]: the float operations [/], [%],
      [-], [*] are read as the exact operations on rationals, and [int]
      as truncation toward zero.
    - Code that mutates the application object, writes files or prints,
      and may raise, runs in the monad [M] below: state passing with a
      Python-style exception as the other outcome.  The state reached
      when an exception leaves a block is kept, as in Python.
    - The speech engine, the hardware probe and the directory listing are
      the fields of a [World], passed to every function that uses them. *)

From Stdlib Require Import ZArith QArith Qround Lqa String Ascii List Lia Bool DecimalString.
From stdpp Require Import base gmap strings list fin_maps.
Import ListNotations.

(** ** Python primitives used by the program *)

Module Py.

(** [str.isspace] on one character: the white space code points below
    256 (TAB..CR, FS..US, SPACE, NEL, NBSP). *)
Definition isspace (c : ascii) : bool :=
  let n := N_of_ascii c in
  ((9 <=? n) && (n <=? 13) || (28 <=? n) && (n <=? 32)
   || (n =? 133) || (n =? 160))%N.

Fixpoint lstrip (s : string) : string :=
  match s with
  | EmptyString => EmptyString
  | String c r => if isspace c then lstrip r else s
  end.

(** [rstrip] keeps a character when it is not white space or when
    something is kept after it. *)
Fixpoint rstrip (s : string) : string :=
  match s with
  | EmptyString => EmptyString
  | String c r =>
      match rstrip r with
      | EmptyString => if isspace c then EmptyString else String c EmptyString
      | r' => String c r'
      end
  end.

(** [s.strip()] *)
Definition strip (s : string) : string := rstrip (lstrip s).

(** [s.lower()] on one character: the capital letters below 256 (A..Z
    and the accented capitals 192..222, the multiplication sign 215
    apart) move up by 32. *)
Definition lower_char (c : ascii) : ascii :=
  let n := N_of_ascii c in
  if ((65 <=? n) && (n <=? 90)
      || (192 <=? n) && (n <=? 222) && negb (n =? 215))%N
  then ascii_of_N (n + 32) else c.

Fixpoint lower (s : string) : string :=
  match s with
  | EmptyString => EmptyString
  | String c r => String (lower_char c) (lower r)
  end.

(** [s.startswith(p)] *)
Definition startswith (s p : string) : bool := String.prefix p s.

(** [s.endswith(e)] *)
Definition endswith (s e : string) : bool :=
  let n := String.length s in
  let k := String.length e in
  (k <=? n)%nat && String.eqb (String.substring (n - k) k s) e.

(** [bool(s)] for a string: non-empty. *)
Definition truthy (s : string) : bool := negb (String.eqb s EmptyString).

(** [str(n)] for a non-negative integer. *)
Definition decimal (n : N) : string := NilZero.string_of_uint (N.to_uint n).

Fixpoint zeros (k : nat) : string :=
  match k with
  | O => EmptyString
  | S k' => String "0" (zeros k')
  end.

Definition zfill (width : nat) (s : string) : string :=
  zeros (width - String.length s) +:+ s.

(** [format(z, "0<width>d")]: the sign first, then zeros up to the
    width (the sign counts in the width), then the digits. *)
Definition format_0d (width : nat) (z : Z) : string :=
  if (z <? 0)%Z
  then "-" +:+ zfill (width - 1) (decimal (Z.abs_N z))
  else zfill width (decimal (Z.abs_N z)).

(** [str(z)] for an integer. *)
Definition str_of_Z (z : Z) : string := format_0d 0 z.

(** [int(x)] for a float: truncation toward zero. *)
Definition int (x : Q) : Z := Z.quot (Qnum x) (Zpos (Qden x)).

(** [x % y] for floats: the remainder has the sign of [y]. *)
Definition mod_ (x y : Q) : Q := x - inject_Z (Qfloor (x / y)) * y.

(** [s.rfind(c)] as the number of characters before the last [c]. *)
Fixpoint rfind (c : ascii) (s : string) : option nat :=
  match s with
  | EmptyString => None
  | String a r =>
      match rfind c r with
      | Some i => Some (S i)
      | None => if Ascii.eqb a c then Some O else None
      end
  end.

(** [all(ch == c for ch in s)] *)
Fixpoint all_char (c : ascii) (s : string) : bool :=
  match s with
  | EmptyString => true
  | String a r => Ascii.eqb a c && all_char c r
  end.

(** [os.path.splitext(p)[0]] (posixpath): the extension starts at the
    last dot, when that dot lies in the last component and is preceded
    there by a character that is not a dot. *)
Definition splitext_root (p : string) : string :=
  let name_start := match rfind "/" p with Some i => S i | None => O end in
  match rfind "." p with
  | Some d =>
      if (name_start <=? d)%nat
      then if all_char "." (String.substring name_start (d - name_start) p)
           then p
           else String.substring 0 d p
      else p
  | None => p
  end.

(** [os.path.join(a, b)] (posixpath, two arguments). *)
Definition path_join (a b : string) : string :=
  if startswith b "/" then b
  else if negb (truthy a) || endswith a "/" then a +:+ b
  else a +:+ "/" +:+ b.

(** [os.path.basename(p)] (posixpath). *)
Definition basename (p : string) : string :=
  match rfind "/" p with
  | Some i => String.substring (S i) (String.length p - S i) p
  | None => p
  end.

End Py.

(** The line feed character, written [\n] in the source. *)
Definition LF : string := String "010"%char EmptyString.

(** ** Timestamps *)

(** [format_timestamp(seconds, output_format)], the module level
    function of the command line path. *)
Definition format_timestamp (seconds : Q) (output_format : string) : string :=
  let hours := Py.int (seconds / 3600) in
  let minutes := Py.int (Py.mod_ seconds 3600 / 60) in
  let secs := Py.int (Py.mod_ seconds 60) in
  let millisecs := Py.int ((seconds - inject_Z (Py.int seconds)) * 1000) in
  if String.eqb output_format "srt"
  then Py.format_0d 2 hours +:+ ":" +:+ Py.format_0d 2 minutes +:+ ":"
       +:+ Py.format_0d 2 secs +:+ "," +:+ Py.format_0d 3 millisecs
  else Py.format_0d 2 hours +:+ ":" +:+ Py.format_0d 2 minutes +:+ ":"
       +:+ Py.format_0d 2 secs +:+ "." +:+ Py.format_0d 3 millisecs.

(** [WhisperTranscriptionApp.format_timestamp(self, seconds,
    output_format)], the method of the interactive path. *)
Definition App_format_timestamp (seconds : Q) (output_format : string) : string :=
  let hours := Py.int (seconds / 3600) in
  let minutes := Py.int (Py.mod_ seconds 3600 / 60) in
  let secs := Py.int (Py.mod_ seconds 60) in
  let millisecs := Py.int ((seconds - inject_Z (Py.int seconds)) * 1000) in
  if String.eqb output_format "srt"
  then Py.format_0d 2 hours +:+ ":" +:+ Py.format_0d 2 minutes +:+ ":"
       +:+ Py.format_0d 2 secs +:+ "," +:+ Py.format_0d 3 millisecs
  else Py.format_0d 2 hours +:+ ":" +:+ Py.format_0d 2 minutes +:+ ":"
       +:+ Py.format_0d 2 secs +:+ "." +:+ Py.format_0d 3 millisecs.

(** ** Data model *)

(** One entry of [result[segments]]: the keys the program reads. *)
Record Segment : Type := mkSegment {
  seg_start : Q;
  seg_end : Q;
  seg_text : string
}.

(** The dictionary returned by [model.transcribe]. *)
Record Result : Type := mkResult {
  res_text : string;
  res_segments : list Segment
}.

(** A raised exception; [exn_msg] is [str(e)]. *)
Record exn : Type := Exn { exn_kind : string; exn_msg : string }.

(** The collaborators outside the program. *)
Record World : Type := mkWorld {
  (** [torch.cuda.is_available()] *)
  cuda_is_available : bool;
  (** [whisper.load_model(model_name, device=device)]: [Some e] when it raises. *)
  load_model_error : string -> string -> option exn;
  (** [model.transcribe(path, fp16=.., language=..)] for the model loaded
      as [model_name] on [device]. *)
  engine : string -> string -> bool -> option string -> string -> exn + Result;
  (** [open(path, w)]: [Some e] when it raises. *)
  open_error : string -> option exn;
  (** [json.dump(result, f, indent=4)]: the text written. *)
  json_dump : Result -> string;
  (** [os.listdir], [os.path.isdir], [os.path.isfile], [os.path.exists] *)
  listdir : string -> list string;
  isdir : string -> bool;
  isfile : string -> bool;
  path_exists : string -> bool
}.

(** ** The application object and the machine state *)

(** A call of [tkinter.messagebox]. *)
Inductive dialog : Type :=
| showinfo (title message : string)
| showwarning (title message : string)
| showerror (title message : string).

(** The fields of [WhisperTranscriptionApp] the orchestration uses: the
    Tk variables by their current value, the values offered by the
    device list, the flag, the lines of the log widget and the message
    boxes shown so far. *)
Record App : Type := mkApp {
  input_path : string;
  model_var : string;
  format_var : string;
  language_var : string;
  device_var : string;
  device_values : list string;
  progress_var : Q;
  status_var : string;
  processing : bool;
  log_text : list string;
  dialogs : list dialog
}.

(** What the program acts on: the files it wrote, the standard output,
    the calls it made to the engine (paths, oldest first), and the
    application object. *)
Record State : Type := mkState {
  fs : gmap string string;
  stdout : list string;
  engine_calls : list string;
  app : App
}.

(** ** State and exception monad *)

Definition M (A : Type) : Type := State -> (exn + A) * State.

Definition ret {A} (a : A) : M A := fun s => (inr a, s).

Definition bind {A B} (m : M A) (k : A -> M B) : M B :=
  fun s => match m s with
           | (inr a, s') => k a s'
           | (inl e, s') => (inl e, s')
           end.

Definition raise {A} (e : exn) : M A := fun s => (inl e, s).

(** [try: m except Exception as e: h e] *)
Definition try_except {A} (m : M A) (h : exn -> M A) : M A :=
  fun s => match m s with
           | (inr a, s') => (inr a, s')
           | (inl e, s') => h e s'
           end.

(** [try: m finally: f] *)
Definition try_finally {A} (m : M A) (f : M unit) : M A :=
  fun s => match m s with
           | (r, s') =>
               match f s' with
               | (inr _, s'') => (r, s'')
               | (inl e, s'') => (inl e, s'')
               end
           end.

Definition get : M State := fun s => (inr s, s).
Definition modify (f : State -> State) : M unit := fun s => (inr tt, f s).

Declare Scope m_scope.
Delimit Scope m_scope with M.
Notation "x <- m ;; k" := (bind m (fun x => k))
  (at level 100, m at next level, right associativity) : m_scope.
Notation "m ;;; k" := (bind m (fun _ => k))
  (at level 100, right associativity) : m_scope.
Open Scope m_scope.

(** Field updates. *)
Definition with_fs (f : gmap string string -> gmap string string) (s : State) : State :=
  mkState (f (fs s)) (stdout s) (engine_calls s) (app s).
Definition with_stdout (f : list string -> list string) (s : State) : State :=
  mkState (fs s) (f (stdout s)) (engine_calls s) (app s).
Definition with_engine_calls (f : list string -> list string) (s : State) : State :=
  mkState (fs s) (stdout s) (f (engine_calls s)) (app s).
Definition with_app (f : App -> App) (s : State) : State :=
  mkState (fs s) (stdout s) (engine_calls s) (f (app s)).

Definition app_set_progress (v : Q) (a : App) : App :=
  mkApp (input_path a) (model_var a) (format_var a) (language_var a) (device_var a)
        (device_values a) v (status_var a) (processing a) (log_text a) (dialogs a).
Definition app_set_status (v : string) (a : App) : App :=
  mkApp (input_path a) (model_var a) (format_var a) (language_var a) (device_var a)
        (device_values a) (progress_var a) v (processing a) (log_text a) (dialogs a).
Definition app_set_processing (v : bool) (a : App) : App :=
  mkApp (input_path a) (model_var a) (format_var a) (language_var a) (device_var a)
        (device_values a) (progress_var a) (status_var a) v (log_text a) (dialogs a).
Definition app_add_log (line : string) (a : App) : App :=
  mkApp (input_path a) (model_var a) (format_var a) (language_var a) (device_var a)
        (device_values a) (progress_var a) (status_var a) (processing a)
        (log_text a ++ [line]) (dialogs a).
Definition app_add_dialog (d : dialog) (a : App) : App :=
  mkApp (input_path a) (model_var a) (format_var a) (language_var a) (device_var a)
        (device_values a) (progress_var a) (status_var a) (processing a)
        (log_text a) (dialogs a ++ [d]).
Definition app_set_device (v : string) (a : App) : App :=
  mkApp (input_path a) (model_var a) (format_var a) (language_var a) v
        (device_values a) (progress_var a) (status_var a) (processing a)
        (log_text a) (dialogs a).
Definition app_set_device_values (v : list string) (a : App) : App :=
  mkApp (input_path a) (model_var a) (format_var a) (language_var a) (device_var a)
        v (progress_var a) (status_var a) (processing a) (log_text a) (dialogs a).

(** ** Effects shared by the two front ends *)

(** [print(line)] *)
Definition print (line : string) : M unit :=
  modify (with_stdout (fun out => out ++ [line])).

(** [whisper.load_model(model_name, device=device)]; the model object is
    the pair it was loaded from. *)
Definition load_model (w : World) (model_name device : string) : M (string * string) :=
  match load_model_error w model_name device with
  | Some e => raise e
  | None => ret (model_name, device)
  end.

(** [model.transcribe(path, fp16=.., language=..)].  The call is
    recorded; [during] is what the other thread does while the call is
    in flight (nothing on the command line path); then the engine
    returns or raises. *)
Definition model_transcribe (w : World) (model : string * string) (path : string)
    (fp16 : bool) (language : option string) (during : M unit) : M Result :=
  modify (with_engine_calls (fun c => c ++ [path])) ;;;
  during ;;;
  match engine w (fst model) (snd model) fp16 language path with
  | inl e => raise e
  | inr r => ret r
  end.

(** The [language] entry of [transcribe_options]: present when the
    argument is a non-empty string. *)
Definition language_option (language : option string) : option string :=
  match language with
  | Some l => if Py.truthy l then Some l else None
  | None => None
  end.

(** [with open(path, w, encoding=utf-8) as f: body f]: the file is
    created or emptied, then [body] writes to it. *)
Definition with_open (w : World) (path : string) (body : string -> M unit) : M unit :=
  match open_error w path with
  | Some e => raise e
  | None => modify (with_fs (fun m => <[path := EmptyString]> m)) ;;; body path
  end.

(** [f.write(text)] on the file opened at [f]. *)
Definition f_write (f : string) (text : string) : M unit :=
  modify (with_fs (fun m => alter (fun c => c +:+ text) f m)).

(** [for i, x in enumerate(l): body i x], counting from [i]. *)
Fixpoint for_enumerate {A} (i : nat) (l : list A) (body : nat -> A -> M unit) : M unit :=
  match l with
  | [] => ret tt
  | x :: r => body i x ;;; for_enumerate (S i) r body
  end.

(** [any(file.lower().endswith(ext) for ext in audio_extensions)] *)
Definition audio_extensions : list string := [".mp3"; ".wav"; ".m4a"; ".flac"; ".ogg"].

Definition is_audio (file : string) : bool :=
  existsb (fun ext => Py.endswith (Py.lower file) ext) audio_extensions.

(** The loop that collects [audio_files] from [os.listdir(directory)]. *)
Definition collect_audio_files (w : World) (directory : string) : list string :=
  fold_left
    (fun audio_files file =>
       if is_audio file then audio_files ++ [Py.path_join directory file] else audio_files)
    (listdir w directory) [].

(** ** Command line path *)

(** [transcribe_audio(audio_path, model_name, output_format, language, device)] *)
Definition transcribe_audio (w : World) (audio_path model_name output_format : string)
    (language device : option string) : M string :=
  let device := match device with
                | None => if cuda_is_available w then "cuda" else "cpu"
                | Some d => d
                end in
  print ("Loading model: " +:+ model_name +:+ " on " +:+ device) ;;;
  model <- load_model w model_name device ;;
  print ("Transcribing: " +:+ audio_path) ;;;
  result <- model_transcribe w model audio_path (String.eqb device "cuda")
              (language_option language) (ret tt) ;;
  let base_name := Py.splitext_root audio_path in
  let output_file := base_name +:+ "." +:+ output_format in
  (if String.eqb output_format "txt" then
     with_open w output_file (fun f => f_write f (res_text result))
   else if String.eqb output_format "srt" || String.eqb output_format "vtt" then
     with_open w output_file (fun f =>
       let segments := res_segments result in
       for_enumerate 0 segments (fun i segment =>
         let start_time := format_timestamp (seg_start segment) output_format in
         let end_time := format_timestamp (seg_end segment) output_format in
         let text := Py.strip (seg_text segment) in
         if String.eqb output_format "srt" then
           f_write f (Py.decimal (N.of_nat (i + 1)) +:+ LF) ;;;
           f_write f (start_time +:+ " --> " +:+ end_time +:+ LF) ;;;
           f_write f (text +:+ LF +:+ LF)
         else
           (if Nat.eqb i 0 then f_write f ("WEBVTT" +:+ LF +:+ LF) else ret tt) ;;;
           f_write f (start_time +:+ " --> " +:+ end_time +:+ LF) ;;;
           f_write f (text +:+ LF +:+ LF)))
   else if String.eqb output_format "json" then
     with_open w output_file (fun f => f_write f (json_dump w result))
   else ret tt) ;;;
  print ("Transcription saved to: " +:+ output_file) ;;;
  ret output_file.

(** The [for audio_file in tqdm(audio_files)] loop of [batch_transcribe]. *)
Fixpoint batch_transcribe_loop (w : World) (model_name output_format : string)
    (language device : option string) (audio_files : list string)
    (output_files : list string) : M (list string) :=
  match audio_files with
  | [] => ret output_files
  | audio_file :: rest =>
      output_files <-
        try_except
          (output_file <- transcribe_audio w audio_file model_name output_format
                            language device ;;
           ret (output_files ++ [output_file]))
          (fun e =>
             print ("Error processing " +:+ audio_file +:+ ": " +:+ exn_msg e) ;;;
             ret output_files) ;;
      batch_transcribe_loop w model_name output_format language device rest output_files
  end.

(** [batch_transcribe(directory, model_name, output_format, language, device)] *)
Definition batch_transcribe (w : World) (directory model_name output_format : string)
    (language device : option string) : M (list string) :=
  let audio_files := collect_audio_files w directory in
  match audio_files with
  | [] => print "No audio files found in the directory." ;;; ret []
  | _ =>
      print ("Found " +:+ Py.decimal (N.of_nat (List.length audio_files))
             +:+ " audio files to process") ;;;
      batch_transcribe_loop w model_name output_format language device audio_files []
  end.


(** The device chosen by [main]: [args.device], or the probe's answer
    when the option is absent. *)
Definition main_device (w : World) (args_device : option string) : string :=
  let gpu_available := cuda_is_available w in
  match args_device with
  | None => if gpu_available then "cuda" else "cpu"
  | Some device => device
  end.


(** ** Interactive path: [WhisperTranscriptionApp] *)

(** [self.log(message)] *)
Definition log (message : string) : M unit :=
  modify (with_app (app_add_log message)).

Definition set_status (v : string) : M unit := modify (with_app (app_set_status v)).
Definition set_progress (v : Q) : M unit := modify (with_app (app_set_progress v)).
Definition set_processing (v : bool) : M unit := modify (with_app (app_set_processing v)).
Definition messagebox (d : dialog) : M unit := modify (with_app (app_add_dialog d)).

(** [check_gpu_availability(self)] *)
Definition check_gpu_availability (w : World) (gpu_name : string) : bool * string :=
  if cuda_is_available w then (true, "GPU available: " +:+ gpu_name)
  else (false, "GPU not available, using CPU").

(** [check_gpu(self)]: the device list offers cuda only when the probe
    finds it, and a selection outside the list falls back to auto. *)
Definition check_gpu (w : World) (gpu_name : string) : M unit :=
  let '(gpu_available, gpu_message) := check_gpu_availability w gpu_name in
  log gpu_message ;;;
  let values := ["auto"; "cpu"] in
  let values := if gpu_available then values ++ ["cuda"] else values in
  modify (with_app (app_set_device_values values)) ;;;
  s <- get ;;
  if existsb (String.eqb (device_var (app s))) values then ret tt
  else modify (with_app (app_set_device "auto")).

(** [cancel_transcription(self)], the handler of the Cancel button. *)
Definition cancel_transcription : M unit :=
  s <- get ;;
  if processing (app s) then
    set_processing false ;;;
    set_status "Cancelled by user" ;;;
    log "Transcription cancelled by user."
  else ret tt.

(** [get_device(self)] *)
Definition get_device (w : World) : M string :=
  s <- get ;;
  let device_choice := device_var (app s) in
  if String.eqb device_choice "auto" then
    ret (if cuda_is_available w then "cuda" else "cpu")
  else ret device_choice.

(** When the user presses Cancel, relative to the worker thread: before
    the worker tests the flag for file [i] (after the previous file is
    finished), while the engine is at work on file [i], or after the
    pipeline has returned.  The handler runs on the other thread; these
    are the points where the worker can observe it. *)
Record Clicks : Type := mkClicks {
  click_before : nat -> bool;
  click_during : nat -> bool;
  click_after : bool
}.

Definition no_clicks : Clicks := mkClicks (fun _ => false) (fun _ => false) false.

Definition deliver (click : bool) : M unit :=
  if click then cancel_transcription else ret tt.

(** [transcribe_audio(self, audio_path, model_name, output_format,
    language, device)] *)
Definition App_transcribe_audio (w : World) (clicks : Clicks)
    (audio_path model_name output_format : string)
    (language : option string) (device : string) : M string :=
  log ("Loading model: " +:+ model_name +:+ " on " +:+ device) ;;;
  model <- load_model w model_name device ;;
  log ("Transcribing: " +:+ audio_path) ;;;
  result <- model_transcribe w model audio_path (String.eqb device "cuda")
              (language_option language) (deliver (click_during clicks 0)) ;;
  let base_name := Py.splitext_root audio_path in
  let output_file := base_name +:+ "." +:+ output_format in
  (if String.eqb output_format "txt" then
     with_open w output_file (fun f => f_write f (res_text result))
   else if String.eqb output_format "srt" || String.eqb output_format "vtt" then
     with_open w output_file (fun f =>
       let segments := res_segments result in
       for_enumerate 0 segments (fun i segment =>
         let start_time := App_format_timestamp (seg_start segment) output_format in
         let end_time := App_format_timestamp (seg_end segment) output_format in
         let text := Py.strip (seg_text segment) in
         if String.eqb output_format "srt" then
           f_write f (Py.decimal (N.of_nat (i + 1)) +:+ LF) ;;;
           f_write f (start_time +:+ " --> " +:+ end_time +:+ LF) ;;;
           f_write f (text +:+ LF +:+ LF)
         else
           (if Nat.eqb i 0 then f_write f ("WEBVTT" +:+ LF +:+ LF) else ret tt) ;;;
           f_write f (start_time +:+ " --> " +:+ end_time +:+ LF) ;;;
           f_write f (text +:+ LF +:+ LF)))
   else if String.eqb output_format "json" then
     with_open w output_file (fun f => f_write f (json_dump w result))
   else ret tt) ;;;
  log ("Transcription saved to: " +:+ output_file) ;;;
  ret output_file.

(** The body of the [try] block of [batch_transcribe(self, ...)] for one
    file: status, log, inference, serialization. *)
Definition App_batch_file (w : World) (clicks : Clicks) (model : string * string)
    (output_format : string) (language : option string) (device : string)
    (total i : nat) (audio_file : string) : M string :=
  set_status ("Transcribing file " +:+ Py.decimal (N.of_nat (i + 1)) +:+ " of "
              +:+ Py.decimal (N.of_nat total) +:+ ": " +:+ Py.basename audio_file) ;;;
  log ("Transcribing: " +:+ audio_file) ;;;
  result <- model_transcribe w model audio_file (String.eqb device "cuda")
              (language_option language) (deliver (click_during clicks i)) ;;
  let base_name := Py.splitext_root audio_file in
  let output_file := base_name +:+ "." +:+ output_format in
  (if String.eqb output_format "txt" then
     with_open w output_file (fun f => f_write f (res_text result))
   else if String.eqb output_format "srt" || String.eqb output_format "vtt" then
     with_open w output_file (fun f =>
       let segments := res_segments result in
       for_enumerate 0 segments (fun j segment =>
         let start_time := App_format_timestamp (seg_start segment) output_format in
         let end_time := App_format_timestamp (seg_end segment) output_format in
         let text := Py.strip (seg_text segment) in
         if String.eqb output_format "srt" then
           f_write f (Py.decimal (N.of_nat (j + 1)) +:+ LF) ;;;
           f_write f (start_time +:+ " --> " +:+ end_time +:+ LF) ;;;
           f_write f (text +:+ LF +:+ LF)
         else
           (if Nat.eqb j 0 then f_write f ("WEBVTT" +:+ LF +:+ LF) else ret tt) ;;;
           f_write f (start_time +:+ " --> " +:+ end_time +:+ LF) ;;;
           f_write f (text +:+ LF +:+ LF)))
   else if String.eqb output_format "json" then
     with_open w output_file (fun f => f_write f (json_dump w result))
   else ret tt) ;;;
  log ("Transcription saved to: " +:+ output_file) ;;;
  ret output_file.

(** The [for i, audio_file in enumerate(audio_files)] loop of
    [batch_transcribe(self, ...)]: the flag is tested first, and a
    cleared flag leaves the loop. *)
Fixpoint App_batch_loop (w : World) (clicks : Clicks) (model : string * string)
    (output_format : string) (language : option string) (device : string)
    (total i : nat) (audio_files : list string)
    (output_files : list string) : M (list string) :=
  match audio_files with
  | [] => ret output_files
  | audio_file :: rest =>
      deliver (click_before clicks i) ;;;
      s <- get ;;
      if negb (processing (app s)) then ret output_files
      else
        output_files <-
          try_except
            (output_file <- App_batch_file w clicks model output_format language
                              device total i audio_file ;;
             ret (output_files ++ [output_file]))
            (fun e =>
               log ("Error processing " +:+ audio_file +:+ ": " +:+ exn_msg e) ;;;
               ret output_files) ;;
        App_batch_loop w clicks model output_format language device total (S i)
          rest output_files
  end.

(** [batch_transcribe(self, directory, model_name, output_format,
    language, device)] *)
Definition App_batch_transcribe (w : World) (clicks : Clicks)
    (directory model_name output_format : string)
    (language : option string) (device : string) : M (list string) :=
  let audio_files := collect_audio_files w directory in
  match audio_files with
  | [] => log "No audio files found in the directory." ;;; ret []
  | _ =>
      log ("Found " +:+ Py.decimal (N.of_nat (List.length audio_files))
           +:+ " audio files to process") ;;;
      log ("Loading model: " +:+ model_name +:+ " on " +:+ device) ;;;
      model <- load_model w model_name device ;;
      App_batch_loop w clicks model output_format language device
        (List.length audio_files) 0 audio_files []
  end.

(** [process_transcription(self)], the body of the worker thread.  The
    progress thread it starts is [simulate_progress] below. *)
Definition process_transcription (w : World) (clicks : Clicks) : M unit :=
  try_finally
    (try_except
       (s <- get ;;
        let input_path := input_path (app s) in
        let model_name := model_var (app s) in
        let output_format := format_var (app s) in
        let language := if Py.truthy (language_var (app s))
                        then Some (language_var (app s)) else None in
        device <- get_device w ;;
        set_progress 0 ;;;
        set_status "Starting transcription..." ;;;
        log ("Starting transcription with model: " +:+ model_name +:+ " on " +:+ device) ;;;
        (if isdir w input_path then
           App_batch_transcribe w clicks input_path model_name output_format
             language device ;;; ret tt
         else
           App_transcribe_audio w clicks input_path model_name output_format
             language device ;;; ret tt) ;;;
        deliver (click_after clicks) ;;;
        set_progress 100 ;;;
        s <- get ;;
        if processing (app s) then
          set_status "Transcription completed!" ;;;
          log "Transcription completed successfully!" ;;;
          messagebox (showinfo "Success" "Transcription completed successfully!")
        else ret tt)
       (fun e =>
          set_status "Error occurred" ;;;
          log ("Error: " +:+ exn_msg e) ;;;
          messagebox (showerror "Error"
                        ("An error occurred during transcription:" +:+ LF +:+ exn_msg e))))
    (set_processing false).

(** [start_transcription(self)]: [true] when the worker thread is
    started. *)
Definition start_transcription (w : World) : M bool :=
  s <- get ;;
  if processing (app s) then
    messagebox (showwarning "Warning" "Transcription already in progress!") ;;;
    ret false
  else
    let input_path := input_path (app s) in
    if negb (Py.truthy input_path) then
      messagebox (showerror "Error" "Please select an audio file or directory first!") ;;;
      ret false
    else if negb (path_exists w input_path) then
      messagebox (showerror "Error" ("The path does not exist: " +:+ input_path)) ;;;
      ret false
    else
      set_processing true ;;;
      ret true.


(** The increment chosen by one pass of the loop of [simulate_progress]. *)
Definition increment_for (step : Q) : Q :=
  if Qlt_le_dec step 20 then 0.5
  else if Qlt_le_dec step 50 then 0.3
  else if Qlt_le_dec step 80 then 0.1
  else 0.05.

(** The [while self.processing and step < 95] loop of
    [simulate_progress(self)].  [others k] is what the other threads do
    before the [k]-th test of the loop condition, the sleep included.
    The loop is bounded by [fuel]; [None] when the bound is reached.
    The sum is kept in lowest terms. *)
Fixpoint simulate_progress_loop (fuel : nat) (others : nat -> M unit) (k : nat)
    (step : Q) : M (option Q) :=
  match fuel with
  | O => ret None
  | S fuel' =>
      others k ;;;
      s <- get ;;
      if processing (app s) && (if Qlt_le_dec step 95 then true else false) then
        let increment := increment_for step in
        let step := Qred (step + increment) in
        set_progress step ;;;
        simulate_progress_loop fuel' others (S k) step
      else ret (Some step)
  end.

(** [simulate_progress(self)] *)
Definition simulate_progress (fuel : nat) (others : nat -> M unit) : M (option Q) :=
  set_progress 0 ;;;
  simulate_progress_loop fuel others 0 0.

(** The state of a job as the window shows it: running while the flag is
    set, otherwise what the status line says. *)
Inductive JobState : Type := Idle | Running | Completed | Cancelled | Failed.

Definition job_state (a : App) : JobState :=
  if processing a then Running
  else if String.eqb (status_var a) "Transcription completed!" then Completed
  else if String.eqb (status_var a) "Cancelled by user" then Cancelled
  else if String.eqb (status_var a) "Error occurred" then Failed
  else Idle.

(** ** Network path: [app.py] *)

(** The parts of the request the handler reads: the uploaded file (name
    and payload) and the form fields. *)
Record Request : Type := mkRequest {
  req_file : option (string * string);
  req_model : option string;
  req_format : option string
}.

(** [audio_file.save(file_path)] *)
Definition save_upload (w : World) (file_path payload : string) : M unit :=
  match open_error w file_path with
  | Some e => raise e
  | None => modify (with_fs (fun m => <[file_path := payload]> m))
  end.

(** [os.remove(file_path)] *)
Definition os_remove (file_path : string) : M unit :=
  s <- get ;;
  match fs s !! file_path with
  | Some _ => modify (with_fs (fun m => delete file_path m))
  | None => raise (Exn "FileNotFoundError" file_path)
  end.

(** [transcribe()], the handler of POST /transcribe; the value is the
    text put in the response.  [app.py] reads [torch.cuda.is_available()]
    but has no import of [torch]: [torch] is what the name is bound to
    in the module, [None] for the file as it stands (the lookup raises
    NameError), [Some b] when the name is provided and the probe
    answers [b].  The engine is called with its defaults. *)
Definition Web_transcribe (w : World) (torch : option bool) (req : Request) : M string :=
  audio_file <- match req_file req with
                | Some f => ret f
                | None => raise (Exn "BadRequestKeyError" "file")
                end ;;
  let model_name := match req_model req with Some m => m | None => "base" end in
  let output_format := match req_format req with Some f => f | None => "txt" end in
  cuda <- match torch with
          | Some b => ret b
          | None => raise (Exn "NameError" "name 'torch' is not defined")
          end ;;
  let device := if cuda : bool then "cuda" else "cpu" in
  let file_path := "temp/" +:+ fst audio_file in
  save_upload w file_path (snd audio_file) ;;;
  model <- load_model w model_name device ;;
  result <- model_transcribe w model file_path true None (ret tt) ;;
  os_remove file_path ;;;
  ret (res_text result).

(** ** What the specification asks of device resolution, written from
    its words for comparison with the code *)

Inductive DeviceError : Type := DeviceUnavailable.

(** The contract resolve(preference, hardwareAcceleratedAvailable) of
    the specification. *)
Definition resolve_spec (preference : string) (available : bool) : DeviceError + string :=
  if String.eqb preference "auto" then inr (if available then "cuda" else "cpu")
  else if String.eqb preference "cuda" then
    if available then inr "cuda" else inl DeviceUnavailable
  else inr preference.

(** ** The text of a subtitle file, for the statements below *)

(** The block of one segment in an srt file, numbered [n]. *)
Definition srt_block (n : nat) (segment : Segment) : string :=
  Py.decimal (N.of_nat n) +:+ LF
  +:+ format_timestamp (seg_start segment) "srt" +:+ " --> "
  +:+ format_timestamp (seg_end segment) "srt" +:+ LF
  +:+ Py.strip (seg_text segment) +:+ LF +:+ LF.

(** The block of one segment in a vtt file. *)
Definition vtt_block (segment : Segment) : string :=
  format_timestamp (seg_start segment) "vtt" +:+ " --> "
  +:+ format_timestamp (seg_end segment) "vtt" +:+ LF
  +:+ Py.strip (seg_text segment) +:+ LF +:+ LF.

(** The blocks of [segments] in order, the first one numbered [n]. *)
Fixpoint srt_blocks (n : nat) (segments : list Segment) : string :=
  match segments with
  | [] => EmptyString
  | segment :: rest => srt_block n segment +:+ srt_blocks (S n) rest
  end.

Fixpoint vtt_blocks (segments : list Segment) : string :=
  match segments with
  | [] => EmptyString
  | segment :: rest => vtt_block segment +:+ vtt_blocks rest
  end.

Definition vtt_header : string := "WEBVTT" +:+ LF +:+ LF.

(** The state after [text] is appended to the open file [f]. *)
Definition appended (f text : string) (s : State) : State :=
  with_fs (fun m => alter (fun c => c +:+ text) f m) s.


(** The text of the output file for each format; no file is written for
    a format outside the four. *)
Definition file_text (w : World) (output_format : string) (result : Result)
  : option string :=
  if String.eqb output_format "txt" then Some (res_text result)
  else if String.eqb output_format "srt" then
    Some (srt_blocks 1 (res_segments result))
  else if String.eqb output_format "vtt" then
    Some (match res_segments result with
          | [] => EmptyString
          | _ :: _ => vtt_header +:+ vtt_blocks (res_segments result)
          end)
  else if String.eqb output_format "json" then Some (json_dump w result)
  else None.

(** The state after the output file is written. *)
Definition written (w : World) (output_file output_format : string) (result : Result)
    (s : State) : State :=
  match file_text w output_format result with
  | Some text => with_fs (fun m => <[output_file := text]> m) s
  | None => s
  end.


(** ** States reached by the elementary effects *)

Definition printed (line : string) (s : State) : State :=
  with_stdout (fun out => out ++ [line]) s.

Definition logged (line : string) (s : State) : State :=
  with_app (app_add_log line) s.

Definition called (path : string) (s : State) : State :=
  with_engine_calls (fun c => c ++ [path]) s.

(** The state after the Cancel button is pressed. *)
Definition cancelled (s : State) : State :=
  if processing (app s) then
    logged "Transcription cancelled by user."
      (with_app (app_set_status "Cancelled by user")
         (with_app (app_set_processing false) s))
  else s.

Definition clicked (click : bool) (s : State) : State :=
  if click then cancelled s else s.

(** The formats for which a file is opened. *)
Definition writes_file (output_format : string) : bool :=
  String.eqb output_format "txt" || String.eqb output_format "srt"
  || String.eqb output_format "vtt" || String.eqb output_format "json".

(** The name of the output file. *)
Definition output_path (audio_path output_format : string) : string :=
  Py.splitext_root audio_path +:+ "." +:+ output_format.

(** What inference and serialization of one file come to in a world,
    with the model loaded as [model_name] on [device]: the exception
    raised, or the result that is written. *)
Definition file_outcome (w : World) (model_name device output_format : string)
    (language : option string) (audio_file : string) : exn + Result :=
  match engine w model_name device (String.eqb device "cuda")
          (language_option language) audio_file with
  | inl e => inl e
  | inr result =>
      if writes_file output_format then
        match open_error w (output_path audio_file output_format) with
        | Some e => inl e
        | None => inr result
        end
      else inr result
  end.

(** The device used by the command line functions. *)
Definition cli_device (w : World) (device : option string) : string :=
  match device with
  | None => if cuda_is_available w then "cuda" else "cpu"
  | Some d => d
  end.


(** ** Sample worlds and states, for the examples *)

(** A world without accelerated hardware unless [cuda], where every
    model loads and every file opens, the engine answers [answers path],
    and every directory lists [entries]; the path d is the one
    directory. *)
Definition sample_world (cuda : bool) (answers : string -> exn + Result)
    (entries : list string) : World :=
  mkWorld cuda (fun _ _ => None) (fun _ _ _ _ path => answers path) (fun _ => None)
          (fun r => "{" +:+ res_text r +:+ "}") (fun _ => entries)
          (fun p => String.eqb p "d") (fun p => negb (String.eqb p "d")) (fun _ => true).

(** The application as [__init__] leaves it. *)
Definition init_app : App :=
  mkApp EmptyString "base" "txt" EmptyString "auto" ["auto"; "cpu"; "cuda"]
        0 "Ready" false [] [].

Definition init_state : State := mkState ∅ [] [] init_app.

(** The application after the user has chosen a path, a format and a
    device in the window. *)
Definition chosen (path output_format device : string) : State :=
  mkState ∅ [] []
    (mkApp path "base" output_format EmptyString device ["auto"; "cpu"; "cuda"]
           0 "Ready" false [] []).

Definition two_segments : Result :=
  mkResult " hello world"
    [mkSegment 0 1.5 " hello"; mkSegment 3661.25 3662 "world "].

Definition no_segments : Result := mkResult EmptyString [].

Definition negative_start : Result :=
  mkResult "hi" [mkSegment (-1.5) 2 "hi"].

Definition corrupt : exn := Exn "RuntimeError" "corrupt audio".


(** ** The batch, file by file *)

(** The line logged, or printed, for a file that fails. *)
Definition error_line (audio_file : string) (e : exn) : string :=
  "Error processing " +:+ audio_file +:+ ": " +:+ exn_msg e.

(** The status shown while file [i] (from 0) of [total] is transcribed. *)
Definition file_status (total i : nat) (audio_file : string) : string :=
  "Transcribing file " +:+ Py.decimal (N.of_nat (i + 1)) +:+ " of "
  +:+ Py.decimal (N.of_nat total) +:+ ": " +:+ Py.basename audio_file.

(** The state after the batch of the interactive path has handled file
    [i], started with the flag set. *)
Definition after_file (w : World) (clicks : Clicks)
    (model_name output_format : string) (language : option string) (device : string)
    (total i : nat) (audio_file : string) (s : State) : State :=
  let s2 := clicked (click_during clicks i)
              (called audio_file
                 (logged ("Transcribing: " +:+ audio_file)
                    (with_app (app_set_status (file_status total i audio_file)) s))) in
  match file_outcome w model_name device output_format language audio_file with
  | inl e => logged (error_line audio_file e) s2
  | inr result =>
      logged ("Transcription saved to: " +:+ output_path audio_file output_format)
        (written w (output_path audio_file output_format) output_format result s2)
  end.

Fixpoint after_files (w : World) (clicks : Clicks)
    (model_name output_format : string) (language : option string) (device : string)
    (total i : nat) (audio_files : list string) (s : State) : State :=
  match audio_files with
  | [] => s
  | audio_file :: rest =>
      after_files w clicks model_name output_format language device total (S i) rest
        (after_file w clicks model_name output_format language device total i
           audio_file s)
  end.

(** The output paths of the files of a list that succeed, in order. *)
Fixpoint batch_outputs (w : World) (model_name device output_format : string)
    (language : option string) (audio_files : list string) : list string :=
  match audio_files with
  | [] => []
  | audio_file :: rest =>
      match file_outcome w model_name device output_format language audio_file with
      | inl _ => batch_outputs w model_name device output_format language rest
      | inr _ =>
          output_path audio_file output_format
          :: batch_outputs w model_name device output_format language rest
      end
  end.

(** The lines the batch of the interactive path logs for a list of
    files: the start of each file, then where it was saved or why it
    failed. *)
Fixpoint batch_log (w : World) (model_name device output_format : string)
    (language : option string) (audio_files : list string) : list string :=
  match audio_files with
  | [] => []
  | audio_file :: rest =>
      ("Transcribing: " +:+ audio_file)
      :: match file_outcome w model_name device output_format language audio_file with
         | inl e => error_line audio_file e
         | inr _ => "Transcription saved to: " +:+ output_path audio_file output_format
         end
      :: batch_log w model_name device output_format language rest
  end.

(** The lines the batch of the command line path prints for a list of
    files. *)
Fixpoint batch_prints (w : World) (model_name device output_format : string)
    (language : option string) (audio_files : list string) : list string :=
  match audio_files with
  | [] => []
  | audio_file :: rest =>
      ("Loading model: " +:+ model_name +:+ " on " +:+ device)
      :: ("Transcribing: " +:+ audio_file)
      :: match file_outcome w model_name device output_format language audio_file with
         | inl e => error_line audio_file e
         | inr _ => "Transcription saved to: " +:+ output_path audio_file output_format
         end
      :: batch_prints w model_name device output_format language rest
  end.

(** The state after the batch of the command line path has handled one
    file, the model loading. *)
Definition cli_after_file (w : World) (model_name device output_format : string)
    (language : option string) (audio_file : string) (s : State) : State :=
  let s2 := called audio_file
              (printed ("Transcribing: " +:+ audio_file)
                 (printed ("Loading model: " +:+ model_name +:+ " on " +:+ device) s)) in
  match file_outcome w model_name device output_format language audio_file with
  | inl e => printed (error_line audio_file e) s2
  | inr result =>
      printed ("Transcription saved to: " +:+ output_path audio_file output_format)
        (written w (output_path audio_file output_format) output_format result s2)
  end.

(** The lines that report a failed file. *)
Definition is_error_line (line : string) : bool :=
  Py.startswith line "Error processing ".

(** The error lines of the files of a list that fail, in order. *)
Fixpoint batch_errors (w : World) (model_name device output_format : string)
    (language : option string) (audio_files : list string) : list string :=
  match audio_files with
  | [] => []
  | audio_file :: rest =>
      match file_outcome w model_name device output_format language audio_file with
      | inl e =>
          error_line audio_file e
          :: batch_errors w model_name device output_format language rest
      | inr _ => batch_errors w model_name device output_format language rest
      end
  end.

(** The [n] files from position [i] on are handled with the flag set: no
    click before any of them, and none during any of them but possibly
    the last. *)
Definition quiet (clicks : Clicks) (i n : nat) : Prop :=
  forall j, (i <= j < i + n)%nat ->
    click_before clicks j = false
    /\ ((S j < i + n)%nat -> click_during clicks j = false).

(** Once the flag is cleared the status line tells of the cancellation:
    the property the worker keeps from the moment it is started. *)
Definition flag_ok (s : State) : Prop :=
  processing (app s) = false -> status_var (app s) = "Cancelled by user".

(** ** The worker thread in three parts *)

(** The device the worker resolves. *)
Definition worker_device (w : World) (a : App) : string :=
  if String.eqb (device_var a) "auto"
  then (if cuda_is_available w then "cuda" else "cpu")
  else device_var a.

Definition worker_language (a : App) : option string :=
  if Py.truthy (language_var a) then Some (language_var a) else None.

(** The state when the worker enters the pipeline: progress 0, the
    status and the log line of the start. *)
Definition worker_start (w : World) (s : State) : State :=
  logged ("Starting transcription with model: " +:+ model_var (app s) +:+ " on "
          +:+ worker_device w (app s))
    (with_app (app_set_status "Starting transcription...")
       (with_app (app_set_progress 0) s)).

(** The pipeline the worker runs for the application [a]: the batch for
    a directory, one file otherwise. *)
Definition pipeline (w : World) (clicks : Clicks) (a : App) : M unit :=
  if isdir w (input_path a) then
    App_batch_transcribe w clicks (input_path a) (model_var a) (format_var a)
      (worker_language a) (worker_device w a) ;;; ret tt
  else
    App_transcribe_audio w clicks (input_path a) (model_var a) (format_var a)
      (worker_language a) (worker_device w a) ;;; ret tt.

(** The state the worker ends in, from the outcome [r] of the pipeline
    and the state [s] it left. *)
Definition finished (clicks : Clicks) (r : exn + unit) (s : State) : State :=
  with_app (app_set_processing false)
    match r with
    | inl e =>
        with_app (app_add_dialog
                    (showerror "Error"
                       ("An error occurred during transcription:" +:+ LF +:+ exn_msg e)))
          (logged ("Error: " +:+ exn_msg e)
             (with_app (app_set_status "Error occurred") s))
    | inr _ =>
        let s2 := with_app (app_set_progress 100) (clicked (click_after clicks) s) in
        if processing (app s2) then
          with_app (app_add_dialog
                      (showinfo "Success" "Transcription completed successfully!"))
            (logged "Transcription completed successfully!"
               (with_app (app_set_status "Transcription completed!") s2))
        else s2
    end.

(** A world for the batch examples: the directory d lists a.mp3, b.MP3,
    notes.txt and c.wav, and the engine rejects b.MP3. *)
Definition batch_world : World :=
  sample_world false
    (fun path => if String.eqb path "d/b.MP3" then inl corrupt else inr two_segments)
    ["a.mp3"; "b.MP3"; "notes.txt"; "c.wav"].


(** ** The remaining methods of the window *)

Definition app_set_input_path (v : string) (a : App) : App :=
  mkApp v (model_var a) (format_var a) (language_var a) (device_var a)
        (device_values a) (progress_var a) (status_var a) (processing a)
        (log_text a) (dialogs a).

(** [select_file(self)]; [file_path] is what the file dialog returns,
    empty when it is dismissed. *)
Definition select_file (file_path : string) : M unit :=
  if Py.truthy file_path then
    modify (with_app (app_set_input_path file_path)) ;;;
    log ("Selected file: " +:+ file_path)
  else ret tt.

(** [select_directory(self)]; [dir_path] is what the directory dialog
    returns, empty when it is dismissed. *)
Definition select_directory (dir_path : string) : M unit :=
  if Py.truthy dir_path then
    modify (with_app (app_set_input_path dir_path)) ;;;
    log ("Selected directory: " +:+ dir_path)
  else ret tt.

(** [__init__(self, root)]: the variables and the widgets as in
    [init_app], then [check_gpu]. *)
Definition App_init (w : World) (gpu_name : string) : State :=
  snd (check_gpu w gpu_name init_state).

(** What the user entered in the window: the fields the worker reads and
    never writes. *)
Definition request_of (a : App) : string * string * string * string * string * list string :=
  (input_path a, model_var a, format_var a, language_var a, device_var a,
   device_values a).

(** ** The estimator thread, for the statements below *)

(** One turn of the loop of [simulate_progress] on its local variable. *)
Definition advance (step : Q) : Q := Qred (step + increment_for step).

(** A thread that leaves without raising. *)
Definition returns_unit (m : M unit) : Prop :=
  forall s, fst (m s) = inr tt.


(** The files after a batch over [audio_files]: each file that succeeds
    leaves its text at its output path, in the order of the list. *)
Fixpoint batch_fs (w : World) (model_name device output_format : string)
    (language : option string) (audio_files : list string)
    (m : gmap string string) : gmap string string :=
  match audio_files with
  | [] => m
  | audio_file :: rest =>
      batch_fs w model_name device output_format language rest
        match file_outcome w model_name device output_format language audio_file with
        | inl _ => m
        | inr result =>
            match file_text w output_format result with
            | Some text => <[output_path audio_file output_format := text]> m
            | None => m
            end
        end
  end.


(** * Properties *)

(** ** Numbers and numerals *)

Section Numerals.

Local Open Scope Q_scope.

Lemma int_floor (x : Q) : 0 <= x -> Py.int x = Qfloor x.
Proof.
  destruct x as [n d]. unfold Qle, Py.int, Qfloor. simpl. intros H.
  apply Z.quot_div_nonneg; lia.
Qed.


Lemma floor_bounds (x : Q) (lo hi : Z) :
  inject_Z lo <= x -> x < inject_Z hi + 1 -> (lo <= Qfloor x <= hi)%Z.
Proof.
  intros Hlo Hhi. split.
  - rewrite <- (Qfloor_Z lo). now apply Qfloor_resp_le.
  - assert (H := Qfloor_le x).
    assert (Hlt : inject_Z (Qfloor x) < inject_Z (hi + 1)).
    { rewrite inject_Z_plus. eapply Qle_lt_trans; [exact H | exact Hhi]. }
    rewrite <- Zlt_Qlt in Hlt. lia.
Qed.

Lemma mod_bounds (x y : Q) : 0 < y -> 0 <= Py.mod_ x y /\ Py.mod_ x y < y.
Proof.
  intros Hy. unfold Py.mod_.
  assert (Hle := Qfloor_le (x / y)). assert (Hlt := Qlt_floor (x / y)).
  rewrite inject_Z_plus in Hlt.
  assert (Hx : x == (x / y) * y) by (field; lra).
  set (f := inject_Z (Qfloor (x / y))) in *. set (q := x / y) in *.
  split.
  - assert (f * y <= q * y) by (apply Qmult_le_compat_r; lra). lra.
  - assert (q * y < (f + inject_Z 1) * y) by (apply Qmult_lt_compat_r; lra).
    change (inject_Z 1) with 1 in *. lra.
Qed.

Lemma frac_bounds (x : Q) :
  0 <= x - inject_Z (Qfloor x) /\ x - inject_Z (Qfloor x) < 1.
Proof.
  assert (Hle := Qfloor_le x). assert (Hlt := Qlt_floor x).
  rewrite inject_Z_plus in Hlt. change (inject_Z 1) with 1 in *. lra.
Qed.

(** The numerals of 0..999 have at most three characters, those of
    0..99 at most two: checked on every value. *)
Lemma zfill_length_upto (width : nat) (bound : nat) :
  forallb (fun n => Nat.eqb (String.length (Py.zfill width (Py.decimal (N.of_nat n)))) width)
          (seq 0 bound) = true ->
  forall z : Z, (0 <= z < Z.of_nat bound)%Z ->
    String.length (Py.format_0d width z) = width.
Proof.
  intros Hall z Hz. rewrite forallb_forall in Hall.
  specialize (Hall (Z.to_nat z)).
  unfold Py.format_0d. destruct (Z.ltb_spec z 0) as [Hneg|_]; [lia|].
  assert (Hn : N.of_nat (Z.to_nat z) = Z.abs_N z) by lia.
  rewrite Hn in Hall. apply Nat.eqb_eq, Hall.
  apply in_seq. lia.
Qed.

Lemma format_0d_2_length (z : Z) :
  (0 <= z <= 99)%Z -> String.length (Py.format_0d 2 z) = 2%nat.
Proof.
  intros H. apply (zfill_length_upto 2 100); [vm_compute; reflexivity | lia].
Qed.

Lemma format_0d_3_length (z : Z) :
  (0 <= z <= 999)%Z -> String.length (Py.format_0d 3 z) = 3%nat.
Proof.
  intros H. apply (zfill_length_upto 3 1000); [vm_compute; reflexivity | lia].
Qed.

Lemma append_length (a b : string) :
  String.length (a +:+ b) = (String.length a + String.length b)%nat.
Proof.
  induction a as [|c a IH]; [reflexivity|].
  change (S (String.length (a +:+ b)) = S (String.length a + String.length b)).
  now rewrite IH.
Qed.



End Numerals.

(** ** Timestamp formatting *)

Section Timestamps.

Local Open Scope Q_scope.

(** The separator before the milliseconds: a comma for srt, a period
    otherwise (vtt). *)
Lemma format_timestamp_fields (seconds : Q) (output_format : string) :
  format_timestamp seconds output_format =
    Py.format_0d 2 (Py.int (seconds / 3600)) +:+ ":"
    +:+ Py.format_0d 2 (Py.int (Py.mod_ seconds 3600 / 60)) +:+ ":"
    +:+ Py.format_0d 2 (Py.int (Py.mod_ seconds 60))
    +:+ (if String.eqb output_format "srt" then "," else ".")
    +:+ Py.format_0d 3 (Py.int ((seconds - inject_Z (Py.int seconds)) * 1000)).
Proof.
  unfold format_timestamp. destruct (String.eqb output_format "srt"); reflexivity.
Qed.



End Timestamps.

(** ** Running the serializer *)

Section Serializer.

Lemma app_cons_s (x : ascii) (a b : string) :
  String x a +:+ b = String x (a +:+ b).
Proof. reflexivity. Qed.

Lemma app_assoc_s (a b c : string) : (a +:+ b) +:+ c = a +:+ (b +:+ c).
Proof.
  induction a as [|x a IH]; [reflexivity|].
  rewrite !app_cons_s. now rewrite IH.
Qed.

Lemma app_nil_r_s (a : string) : a +:+ EmptyString = a.
Proof.
  induction a as [|x a IH]; [reflexivity|].
  rewrite app_cons_s. now rewrite IH.
Qed.

Lemma f_write_run (f text : string) (s : State) :
  f_write f text s = (inr tt, appended f text s).
Proof. reflexivity. Qed.

Lemma appended_nil (f : string) (s : State) : appended f EmptyString s = s.
Proof.
  destruct s as [m o c a]. unfold appended, with_fs. simpl. f_equal.
  apply alter_id. intros x _. apply app_nil_r_s.
Qed.

Lemma appended_appended (f a b : string) (s : State) :
  appended f b (appended f a s) = appended f (a +:+ b) s.
Proof.
  destruct s as [m o c ap]. unfold appended, with_fs. simpl. f_equal.
  rewrite alter_alter_eq. apply alter_ext. intros x _. unfold compose.
  apply app_assoc_s.
Qed.

Lemma appended_created (f text : string) (s : State) :
  appended f text (with_fs (fun m => <[f := EmptyString]> m) s)
  = with_fs (fun m => <[f := text]> m) s.
Proof.
  destruct s as [m o c ap]. unfold appended, with_fs. simpl. f_equal.
  now rewrite alter_insert_eq.
Qed.

(** The srt and vtt loops of the three copies of the serializer write
    the blocks above, whatever the times of the segments. *)
Lemma srt_loop_run (f : string) (segments : list Segment) (i : nat) (s : State) :
  for_enumerate i segments (fun i segment =>
    let start_time := format_timestamp (seg_start segment) "srt" in
    let end_time := format_timestamp (seg_end segment) "srt" in
    let text := Py.strip (seg_text segment) in
    f_write f (Py.decimal (N.of_nat (i + 1)) +:+ LF) ;;;
    f_write f (start_time +:+ " --> " +:+ end_time +:+ LF) ;;;
    f_write f (text +:+ LF +:+ LF)) s
  = (inr tt, appended f (srt_blocks (i + 1) segments) s).
Proof.
  revert i s. induction segments as [|seg rest IH]; intros i s.
  - simpl. now rewrite appended_nil.
  - cbn [for_enumerate srt_blocks]. unfold bind at 1.
    unfold bind at 1. rewrite f_write_run.
    unfold bind at 1. rewrite f_write_run, f_write_run.
    rewrite IH. rewrite !appended_appended. f_equal. f_equal.
    unfold srt_block. replace (S i + 1)%nat with (S (i + 1)) by lia.
    now rewrite !app_assoc_s.
Qed.

Lemma vtt_loop_run (f : string) (segments : list Segment) (i : nat) (s : State) :
  for_enumerate i segments (fun i segment =>
    let start_time := format_timestamp (seg_start segment) "vtt" in
    let end_time := format_timestamp (seg_end segment) "vtt" in
    let text := Py.strip (seg_text segment) in
    (if Nat.eqb i 0 then f_write f ("WEBVTT" +:+ LF +:+ LF) else ret tt) ;;;
    f_write f (start_time +:+ " --> " +:+ end_time +:+ LF) ;;;
    f_write f (text +:+ LF +:+ LF)) s
  = (inr tt,
     appended f (match segments with
                 | [] => EmptyString
                 | _ :: _ => (if Nat.eqb i 0 then vtt_header else EmptyString)
                             +:+ vtt_blocks segments
                 end) s).
Proof.
  revert i s. induction segments as [|seg rest IH]; intros i s.
  - simpl. now rewrite appended_nil.
  - cbn [for_enumerate vtt_blocks]. unfold bind at 1. unfold bind at 1.
    assert (Hhead : (if Nat.eqb i 0 then f_write f ("WEBVTT" +:+ LF +:+ LF)
                     else ret tt) s
                    = (inr tt, appended f (if Nat.eqb i 0 then vtt_header
                                           else EmptyString) s)).
    { destruct (Nat.eqb i 0); [reflexivity|].
      unfold ret. now rewrite appended_nil. }
    rewrite Hhead. unfold bind at 1. rewrite f_write_run, f_write_run.
    rewrite IH. rewrite !appended_appended. f_equal. f_equal.
    unfold vtt_block. rewrite !app_assoc_s. do 6 f_equal.
    destruct rest; [now rewrite app_nil_r_s | reflexivity].
Qed.

(** The serialization step shared by the three copies: with the
    output file open for writing it never raises, whatever the
    result, and leaves [file_text] in the file. *)
Lemma serialize_run (w : World) (output_file output_format : string)
    (result : Result) (s : State) :
  open_error w output_file = None ->
  (if String.eqb output_format "txt" then
     with_open w output_file (fun f => f_write f (res_text result))
   else if String.eqb output_format "srt" || String.eqb output_format "vtt" then
     with_open w output_file (fun f =>
       let segments := res_segments result in
       for_enumerate 0 segments (fun i segment =>
         let start_time := format_timestamp (seg_start segment) output_format in
         let end_time := format_timestamp (seg_end segment) output_format in
         let text := Py.strip (seg_text segment) in
         if String.eqb output_format "srt" then
           f_write f (Py.decimal (N.of_nat (i + 1)) +:+ LF) ;;;
           f_write f (start_time +:+ " --> " +:+ end_time +:+ LF) ;;;
           f_write f (text +:+ LF +:+ LF)
         else
           (if Nat.eqb i 0 then f_write f ("WEBVTT" +:+ LF +:+ LF) else ret tt) ;;;
           f_write f (start_time +:+ " --> " +:+ end_time +:+ LF) ;;;
           f_write f (text +:+ LF +:+ LF)))
   else if String.eqb output_format "json" then
     with_open w output_file (fun f => f_write f (json_dump w result))
   else ret tt) s
  = (inr tt, written w output_file output_format result s).
Proof.
  intros Hopen. unfold written, file_text, with_open. rewrite Hopen.
  destruct (String.eqb_spec output_format "txt") as [->|Htxt].
  { unfold bind, modify. rewrite f_write_run. now rewrite appended_created. }
  destruct (String.eqb_spec output_format "srt") as [->|Hsrt].
  { cbn [orb]. unfold bind at 1. unfold modify at 1.
    change (String.eqb "srt" "srt") with true. cbv iota.
    rewrite (srt_loop_run output_file (res_segments result) 0).
    now rewrite appended_created. }
  destruct (String.eqb_spec output_format "vtt") as [->|Hvtt].
  { cbn [orb]. unfold bind at 1. unfold modify at 1.
    change (String.eqb "vtt" "srt") with false. cbv iota.
    rewrite (vtt_loop_run output_file (res_segments result) 0).
    rewrite appended_created. destruct (res_segments result); reflexivity. }
  cbn [orb].
  destruct (String.eqb_spec output_format "json") as [->|Hjson].
  { unfold bind, modify. rewrite f_write_run. now rewrite appended_created. }
  reflexivity.
Qed.

(** When the output file cannot be opened, the formats that write a
    file raise and nothing is written. *)
Lemma serialize_open_error (w : World) (output_file output_format : string)
    (result : Result) (e : exn) (body1 body2 body3 : string -> M unit) (s : State) :
  open_error w output_file = Some e ->
  (if String.eqb output_format "txt" then with_open w output_file body1
   else if String.eqb output_format "srt" || String.eqb output_format "vtt" then
     with_open w output_file body2
   else if String.eqb output_format "json" then with_open w output_file body3
   else ret tt) s
  = (if String.eqb output_format "txt" || String.eqb output_format "srt"
        || String.eqb output_format "vtt" || String.eqb output_format "json"
     then inl e else inr tt, s).
Proof.
  intros Hopen. unfold with_open. rewrite Hopen.
  destruct (String.eqb output_format "txt"); [reflexivity|].
  destruct (String.eqb output_format "srt"); [reflexivity|].
  destruct (String.eqb output_format "vtt"); [reflexivity|].
  destruct (String.eqb output_format "json"); reflexivity.
Qed.

End Serializer.

(** ** Running the pipeline on one file *)

Section OneFile.

Variable w : World.

Lemma written_open_error (output_file output_format : string) (result : Result)
    (s : State) :
  writes_file output_format = false ->
  written w output_file output_format result s = s.
Proof.
  unfold writes_file, written, file_text. intros H.
  destruct (String.eqb output_format "txt"); [discriminate|].
  destruct (String.eqb output_format "srt"); [discriminate|].
  destruct (String.eqb output_format "vtt"); [discriminate|].
  destruct (String.eqb output_format "json"); [discriminate|]. reflexivity.
Qed.

(** The serialization step, in either case of [open]. *)
Lemma serialize_outcome (output_file output_format : string)
    (result : Result) (s : State) :
  (if String.eqb output_format "txt" then
     with_open w output_file (fun f => f_write f (res_text result))
   else if String.eqb output_format "srt" || String.eqb output_format "vtt" then
     with_open w output_file (fun f =>
       let segments := res_segments result in
       for_enumerate 0 segments (fun i segment =>
         let start_time := format_timestamp (seg_start segment) output_format in
         let end_time := format_timestamp (seg_end segment) output_format in
         let text := Py.strip (seg_text segment) in
         if String.eqb output_format "srt" then
           f_write f (Py.decimal (N.of_nat (i + 1)) +:+ LF) ;;;
           f_write f (start_time +:+ " --> " +:+ end_time +:+ LF) ;;;
           f_write f (text +:+ LF +:+ LF)
         else
           (if Nat.eqb i 0 then f_write f ("WEBVTT" +:+ LF +:+ LF) else ret tt) ;;;
           f_write f (start_time +:+ " --> " +:+ end_time +:+ LF) ;;;
           f_write f (text +:+ LF +:+ LF)))
   else if String.eqb output_format "json" then
     with_open w output_file (fun f => f_write f (json_dump w result))
   else ret tt) s
  = match (if writes_file output_format then open_error w output_file else None) with
    | Some e => (inl e, s)
    | None => (inr tt, written w output_file output_format result s)
    end.
Proof.
  destruct (open_error w output_file) as [e|] eqn:Hopen.
  - rewrite (serialize_open_error w _ _ result e _ _ _ s Hopen).
    fold (writes_file output_format).
    destruct (writes_file output_format) eqn:Hw; [reflexivity|].
    now rewrite written_open_error.
  - rewrite serialize_run by assumption.
    now destruct (writes_file output_format).
Qed.

(** [transcribe_audio] of the command line path, step by step. *)
Lemma transcribe_audio_run (audio_path model_name output_format : string)
    (language device : option string) (s : State) :
  let dev := cli_device w device in
  let s1 := printed ("Loading model: " +:+ model_name +:+ " on " +:+ dev) s in
  let s2 := called audio_path (printed ("Transcribing: " +:+ audio_path) s1) in
  let output_file := output_path audio_path output_format in
  transcribe_audio w audio_path model_name output_format language device s =
    match load_model_error w model_name dev with
    | Some e => (inl e, s1)
    | None =>
        match file_outcome w model_name dev output_format language audio_path with
        | inl e => (inl e, s2)
        | inr result =>
            (inr output_file,
             printed ("Transcription saved to: " +:+ output_file)
               (written w output_file output_format result s2))
        end
    end.
Proof.
  intros dev s1 s2 output_file.
  unfold transcribe_audio. fold (cli_device w device). fold dev.
  unfold bind at 1. change (print _ s) with (@inr exn unit tt, s1).
  unfold bind at 1. unfold load_model.
  destruct (load_model_error w model_name dev) as [e|]; [reflexivity|].
  unfold ret at 1. unfold bind at 1.
  change (print _ s1)
    with (@inr exn unit tt, printed ("Transcribing: " +:+ audio_path) s1).
  unfold bind at 1. unfold model_transcribe, file_outcome.
  unfold bind at 1. unfold modify at 1. unfold bind at 1. unfold ret at 1.
  cbn [fst snd]. fold (called audio_path (printed ("Transcribing: " +:+ audio_path) s1)).
  fold s2.
  destruct (engine w model_name dev (String.eqb dev "cuda")
              (language_option language) audio_path) as [e|result];
    [reflexivity|].
  unfold ret at 1. unfold bind at 1.
  fold (output_path audio_path output_format). fold output_file.
  rewrite serialize_outcome.
  destruct (writes_file output_format);
    [destruct (open_error w output_file); reflexivity | reflexivity].
Qed.

Lemma deliver_run (click : bool) (s : State) :
  deliver click s = (inr tt, clicked click s).
Proof.
  unfold deliver, clicked, cancel_transcription, cancelled.
  destruct click; [|reflexivity].
  unfold bind at 1. unfold get at 1.
  destruct (processing (app s)); reflexivity.
Qed.

Lemma model_transcribe_run (model_name device path : string) (fp16 : bool)
    (language : option string) (click : bool) (s : State) :
  model_transcribe w (model_name, device) path fp16 language (deliver click) s
  = (engine w model_name device fp16 language path, clicked click (called path s)).
Proof.
  unfold model_transcribe. unfold bind at 1. unfold modify at 1.
  fold (called path s). unfold bind at 1. rewrite deliver_run. cbn [fst snd].
  destruct (engine w model_name device fp16 language path); reflexivity.
Qed.

(** [transcribe_audio] of the interactive path, step by step. *)
Lemma App_transcribe_audio_run (clicks : Clicks)
    (audio_path model_name output_format : string)
    (language : option string) (device : string) (s : State) :
  let s1 := logged ("Loading model: " +:+ model_name +:+ " on " +:+ device) s in
  let s2 := clicked (click_during clicks 0)
              (called audio_path (logged ("Transcribing: " +:+ audio_path) s1)) in
  let output_file := output_path audio_path output_format in
  App_transcribe_audio w clicks audio_path model_name output_format language device s =
    match load_model_error w model_name device with
    | Some e => (inl e, s1)
    | None =>
        match file_outcome w model_name device output_format language audio_path with
        | inl e => (inl e, s2)
        | inr result =>
            (inr output_file,
             logged ("Transcription saved to: " +:+ output_file)
               (written w output_file output_format result s2))
        end
    end.
Proof.
  intros s1 s2 output_file.
  unfold App_transcribe_audio.
  unfold bind at 1. change (log _ s) with (@inr exn unit tt, s1).
  unfold bind at 1. unfold load_model.
  destruct (load_model_error w model_name device) as [e|]; [reflexivity|].
  unfold ret at 1. unfold bind at 1.
  change (log _ s1)
    with (@inr exn unit tt, logged ("Transcribing: " +:+ audio_path) s1).
  unfold bind at 1. rewrite model_transcribe_run. fold s2.
  unfold file_outcome.
  destruct (engine w model_name device (String.eqb device "cuda")
              (language_option language) audio_path) as [e|result];
    [reflexivity|].
  unfold bind at 1.
  fold (output_path audio_path output_format). fold output_file.
  change App_format_timestamp with format_timestamp.
  rewrite serialize_outcome.
  destruct (writes_file output_format);
    [destruct (open_error w output_file); reflexivity | reflexivity].
Qed.

(** One file of the batch of the interactive path, step by step. *)
Lemma App_batch_file_run (clicks : Clicks) (model_name output_format : string)
    (language : option string) (device : string) (total i : nat)
    (audio_file : string) (s : State) :
  let s1 := logged ("Transcribing: " +:+ audio_file)
              (with_app (app_set_status
                 ("Transcribing file " +:+ Py.decimal (N.of_nat (i + 1)) +:+ " of "
                  +:+ Py.decimal (N.of_nat total) +:+ ": "
                  +:+ Py.basename audio_file)) s) in
  let s2 := clicked (click_during clicks i) (called audio_file s1) in
  let output_file := output_path audio_file output_format in
  App_batch_file w clicks (model_name, device) output_format language device
    total i audio_file s =
    match file_outcome w model_name device output_format language audio_file with
    | inl e => (inl e, s2)
    | inr result =>
        (inr output_file,
         logged ("Transcription saved to: " +:+ output_file)
           (written w output_file output_format result s2))
    end.
Proof.
  intros s1 s2 output_file.
  unfold App_batch_file.
  unfold bind at 1. unfold set_status at 1. unfold modify at 1.
  unfold bind at 1. unfold log at 1. unfold modify at 1.
  fold (logged ("Transcribing: " +:+ audio_file)
          (with_app (app_set_status
             ("Transcribing file " +:+ Py.decimal (N.of_nat (i + 1)) +:+ " of "
              +:+ Py.decimal (N.of_nat total) +:+ ": "
              +:+ Py.basename audio_file)) s)).
  fold s1.
  unfold bind at 1. rewrite model_transcribe_run. fold s2.
  unfold file_outcome.
  destruct (engine w model_name device (String.eqb device "cuda")
              (language_option language) audio_file) as [e|result];
    [reflexivity|].
  unfold bind at 1.
  fold (output_path audio_file output_format). fold output_file.
  change App_format_timestamp with format_timestamp.
  rewrite serialize_outcome.
  destruct (writes_file output_format);
    [destruct (open_error w output_file); reflexivity | reflexivity].
Qed.

End OneFile.

(** ** Subtitle files *)

Section Subtitles.

Lemma srt_blocks_app (n : nat) (l1 l2 : list Segment) :
  srt_blocks n (l1 ++ l2) = srt_blocks n l1 +:+ srt_blocks (n + length l1) l2.
Proof.
  revert n. induction l1 as [|x l1 IH]; intros n.
  - simpl. now rewrite Nat.add_0_r.
  - change (srt_block n x +:+ srt_blocks (S n) (l1 ++ l2) =
            (srt_block n x +:+ srt_blocks (S n) l1)
            +:+ srt_blocks (n + S (length l1)) l2).
    rewrite IH, app_assoc_s.
    now replace (S n + length l1)%nat with (n + S (length l1))%nat by lia.
Qed.

(** The block of the segment at position [n] (from 0) carries the
    number [n + 1] and stands after the blocks of the segments before
    it and before those of the segments after it. *)
Lemma srt_blocks_nth (segments : list Segment) (n : nat) (segment : Segment) :
  segments !! n = Some segment ->
  srt_blocks 1 segments =
    srt_blocks 1 (take n segments) +:+ srt_block (n + 1) segment
    +:+ srt_blocks (n + 2) (drop (S n) segments).
Proof.
  intros Hn.
  assert (Hlen : (n < length segments)%nat) by (eapply lookup_lt_Some; eauto).
  rewrite <- (take_drop_middle segments n segment Hn) at 1.
  rewrite srt_blocks_app. cbn [srt_blocks].
  rewrite length_take, Nat.min_l by lia.
  now replace (1 + n)%nat with (n + 1)%nat by lia;
    replace (S (n + 1)) with (n + 2)%nat by lia.
Qed.

(** The srt file written by [transcribe_audio]. *)
Lemma srt_output (w : World)
    (audio_path model_name : string) (language device : option string)
    (result : Result) (s : State) :
  load_model_error w model_name (cli_device w device) = None ->
  file_outcome w model_name (cli_device w device) "srt" language audio_path
    = inr result ->
  let run := transcribe_audio w audio_path model_name "srt" language device s in
  fst run = inr (output_path audio_path "srt")
  /\ fs (snd run) !! output_path audio_path "srt"
     = Some (srt_blocks 1 (res_segments result)).
Proof.
  intros Hload Hfile run. subst run.
  rewrite transcribe_audio_run, Hload, Hfile. cbn [fst snd].
  split; [reflexivity|].
  unfold printed, written, file_text.
  change (String.eqb "srt" "txt") with false.
  change (String.eqb "srt" "srt") with true. cbv iota.
  cbn [fs with_stdout with_fs]. apply lookup_insert_eq.
Qed.

(** C8: the srt file written by [transcribe_audio] holds, for the
    segment at position n of the result (counting from 1, in the order
    of the engine), the number n on a line, the line of the two
    timestamps, the stripped text and an empty line; the blocks follow
    one another in the order of the segments, numbered 1, 2, 3, ...
    whatever the times are. *)
Theorem srt_output_sequential (w : World)
    (audio_path model_name : string) (language device : option string)
    (result : Result) (s : State) :
  load_model_error w model_name (cli_device w device) = None ->
  file_outcome w model_name (cli_device w device) "srt" language audio_path
    = inr result ->
  let run := transcribe_audio w audio_path model_name "srt" language device s in
  let output_file := output_path audio_path "srt" in
  fst run = inr output_file
  /\ fs (snd run) !! output_file = Some (srt_blocks 1 (res_segments result))
  /\ forall (n : nat) (segment : Segment),
       res_segments result !! n = Some segment ->
       srt_blocks 1 (res_segments result) =
         srt_blocks 1 (take n (res_segments result))
         +:+ (Py.decimal (N.of_nat (n + 1)) +:+ LF
              +:+ format_timestamp (seg_start segment) "srt" +:+ " --> "
              +:+ format_timestamp (seg_end segment) "srt" +:+ LF
              +:+ Py.strip (seg_text segment) +:+ LF +:+ LF)
         +:+ srt_blocks (n + 2) (drop (S n) (res_segments result)).
Proof.
  intros Hload Hfile run output_file. subst run.
  destruct (srt_output w audio_path model_name language device result s Hload Hfile)
    as [Hret Hfs].
  split; [exact Hret|]. split; [exact Hfs|].
  intros n segment Hn. now apply srt_blocks_nth.
Qed.

Lemma srt_output_sequential_witness :
  fs (snd (transcribe_audio (sample_world false (fun _ => inr two_segments) [])
             "a.mp3" "base" "srt" None None init_state)) !! "a.srt"
  = Some ("1" +:+ LF +:+ "00:00:00,000 --> 00:00:01,500" +:+ LF +:+ "hello"
          +:+ LF +:+ LF
          +:+ "2" +:+ LF +:+ "01:01:01,250 --> 01:01:02,000" +:+ LF +:+ "world"
          +:+ LF +:+ LF).
Proof.
  exact (proj1 (proj2
    (srt_output_sequential (sample_world false (fun _ => inr two_segments) [])
       "a.mp3" "base" None None two_segments init_state eq_refl eq_refl))).
Defined.

(** The vtt file written by [transcribe_audio]: the header and the
    blocks when there is a segment, nothing when there is none. *)
Lemma vtt_output (w : World)
    (audio_path model_name : string) (language device : option string)
    (result : Result) (s : State) :
  load_model_error w model_name (cli_device w device) = None ->
  file_outcome w model_name (cli_device w device) "vtt" language audio_path
    = inr result ->
  let run := transcribe_audio w audio_path model_name "vtt" language device s in
  fst run = inr (output_path audio_path "vtt")
  /\ fs (snd run) !! output_path audio_path "vtt"
     = Some (match res_segments result with
             | [] => EmptyString
             | _ :: _ => "WEBVTT" +:+ LF +:+ LF +:+ vtt_blocks (res_segments result)
             end).
Proof.
  intros Hload Hfile run. subst run.
  rewrite transcribe_audio_run, Hload, Hfile. cbn [fst snd].
  split; [reflexivity|].
  unfold printed, written, file_text.
  change (String.eqb "vtt" "txt") with false.
  change (String.eqb "vtt" "srt") with false.
  change (String.eqb "vtt" "vtt") with true. cbv iota.
  cbn [fs with_stdout with_fs]. rewrite lookup_insert_eq.
  destruct (res_segments result); reflexivity.
Qed.

(** C7, at a result without segments: the vtt file is written empty,
    without the WEBVTT line. *)
Example vtt_no_segments_no_header :
  let run := transcribe_audio (sample_world false (fun _ => inr no_segments) [])
               "a.mp3" "base" "vtt" None None init_state in
  fst run = inr "a.vtt" /\ fs (snd run) !! "a.vtt" = Some EmptyString.
Proof.
  exact (vtt_output (sample_world false (fun _ => inr no_segments) [])
           "a.mp3" "base" None None no_segments init_state eq_refl eq_refl).
Qed.


End Subtitles.

(** ** Negative times *)

Section NegativeTimes.

Local Open Scope Q_scope.






End NegativeTimes.

(** ** The two copies of the serializer *)

Section TwoCopies.

Lemma fs_clicked (click : bool) (s : State) : fs (clicked click s) = fs s.
Proof.
  unfold clicked, cancelled. destruct click; [|reflexivity].
  destruct (processing (app s)); reflexivity.
Qed.

Lemma engine_calls_clicked (click : bool) (s : State) :
  engine_calls (clicked click s) = engine_calls s.
Proof.
  unfold clicked, cancelled. destruct click; [|reflexivity].
  destruct (processing (app s)); reflexivity.
Qed.

Lemma fs_written (w : World) (output_file output_format : string) (result : Result)
    (s : State) :
  fs (written w output_file output_format result s)
  = match file_text w output_format result with
    | Some text => <[output_file := text]> (fs s)
    | None => fs s
    end.
Proof. unfold written. now destruct (file_text w output_format result). Qed.

Lemma engine_calls_written (w : World) (output_file output_format : string)
    (result : Result) (s : State) :
  engine_calls (written w output_file output_format result s) = engine_calls s.
Proof. unfold written. now destruct (file_text w output_format result). Qed.

(** C10: the method and the module level function give the same
    timestamp for every time and format, and, run from the same state
    on the same file with the same model, format, language and device,
    they end alike (the same output path or the same exception), leave
    the same files with the same contents and make the same calls to
    the engine. *)
Theorem serializers_agree (w : World) (clicks : Clicks)
    (audio_path model_name output_format : string)
    (language : option string) (device : string) (s : State) (seconds : Q) :
  App_format_timestamp seconds output_format = format_timestamp seconds output_format
  /\ let gui := App_transcribe_audio w clicks audio_path model_name output_format
                  language device s in
     let cli := transcribe_audio w audio_path model_name output_format
                  language (Some device) s in
     fst gui = fst cli
     /\ fs (snd gui) = fs (snd cli)
     /\ engine_calls (snd gui) = engine_calls (snd cli).
Proof.
  split; [reflexivity|].
  intros gui cli. subst gui cli.
  rewrite App_transcribe_audio_run, transcribe_audio_run.
  cbn [cli_device].
  destruct (load_model_error w model_name device) as [e|];
    [repeat split; reflexivity|].
  destruct (file_outcome w model_name device output_format language audio_path)
    as [e|result]; cbn [fst snd].
  - repeat split; [now rewrite fs_clicked | now rewrite engine_calls_clicked].
  - split; [reflexivity|]. split.
    + change (fs (logged ?l ?x)) with (fs x). change (fs (printed ?l ?x)) with (fs x).
      rewrite !fs_written, fs_clicked. reflexivity.
    + change (engine_calls (logged ?l ?x)) with (engine_calls x).
      change (engine_calls (printed ?l ?x)) with (engine_calls x).
      rewrite !engine_calls_written, engine_calls_clicked. reflexivity.
Qed.

End TwoCopies.

(** ** Device resolution *)

Section Devices.

Lemma get_device_run (w : World) (s : State) :
  get_device w s
  = (inr (if String.eqb (device_var (app s)) "auto"
          then (if cuda_is_available w then "cuda" else "cpu")
          else device_var (app s)), s).
Proof.
  unfold get_device, bind, get.
  destruct (String.eqb (device_var (app s)) "auto"); reflexivity.
Qed.

(** C4 as the code has it: an explicit device is handed on as it is,
    by [get_device] and by [main] alike, whether or not the hardware
    is there: no error is reported by the resolution and the choice is
    not replaced by the other device.  Only auto looks at the
    hardware. *)
Theorem explicit_device_passed_through (w : World) (s : State) (preference : string) :
  preference <> "auto" ->
  device_var (app s) = preference ->
  get_device w s = (inr preference, s)
  /\ main_device w (Some preference) = preference.
Proof.
  intros Hne Hvar. split; [|reflexivity].
  rewrite get_device_run, Hvar.
  destruct (String.eqb_spec preference "auto"); [contradiction | reflexivity].
Qed.

Lemma explicit_device_passed_through_witness :
  get_device (sample_world false (fun _ => inl corrupt) [])
    (chosen "a.mp3" "txt" "cuda")
  = (inr "cuda", chosen "a.mp3" "txt" "cuda")
  /\ main_device (sample_world false (fun _ => inl corrupt) []) (Some "cuda") = "cuda".
Proof.
  exact (explicit_device_passed_through
           (sample_world false (fun _ => inl corrupt) [])
           (chosen "a.mp3" "txt" "cuda") "cuda"
           ltac:(discriminate) eq_refl).
Defined.

(** C4 as stated fails: with --device cuda and no accelerated hardware,
    the specification asks for DeviceUnavailable, and the resolution of
    [main] answers cuda. *)
Lemma unavailable_device_not_reported :
  let w := sample_world false (fun _ => inl corrupt) [] in
  cuda_is_available w = false
  /\ resolve_spec "cuda" (cuda_is_available w) = inl DeviceUnavailable
  /\ main_device w (Some "cuda") = "cuda"
  /\ inr (main_device w (Some "cuda")) <> resolve_spec "cuda" (cuda_is_available w).
Proof. repeat split. discriminate. Qed.

(** In the window the question does not come up: [check_gpu] offers
    cuda only when the probe finds it, and moves a selection that is
    not offered back to auto. *)
Lemma check_gpu_offers (w : World) (gpu_name : string) (s : State) :
  let s' := snd (check_gpu w gpu_name s) in
  device_values (app s')
  = (if cuda_is_available w then ["auto"; "cpu"; "cuda"] else ["auto"; "cpu"])
  /\ In (device_var (app s')) (device_values (app s')).
Proof.
  unfold check_gpu, check_gpu_availability.
  destruct (cuda_is_available w); cbn.
  - destruct (String.eqb_spec (device_var (app s)) "auto") as [E|_]; cbn;
      [rewrite E; auto|].
    destruct (String.eqb_spec (device_var (app s)) "cpu") as [E|_]; cbn;
      [rewrite E; auto|].
    destruct (String.eqb_spec (device_var (app s)) "cuda") as [E|_]; cbn;
      [rewrite E; auto 6 | auto].
  - destruct (String.eqb_spec (device_var (app s)) "auto") as [E|_]; cbn;
      [rewrite E; auto|].
    destruct (String.eqb_spec (device_var (app s)) "cpu") as [E|_]; cbn;
      [rewrite E; auto | auto].
Qed.

End Devices.

(** ** The network endpoint *)

Section Endpoint.

Variable w : World.

(** With [torch] unbound, as [app.py] stands, the handler raises
    before the upload is saved. *)
Lemma Web_transcribe_name_error (req : Request) (name payload : string) (s : State) :
  req_file req = Some (name, payload) ->
  Web_transcribe w None req s
  = (inl (Exn "NameError" "name 'torch' is not defined"), s).
Proof. intros Hfile. unfold Web_transcribe. rewrite Hfile. reflexivity. Qed.

(** The handler step by step, once [torch] is provided. *)
Lemma Web_transcribe_run (cuda : bool) (req : Request) (name payload : string)
    (s : State) :
  let model_name := match req_model req with Some m => m | None => "base" end in
  let device := if cuda then "cuda" else "cpu" in
  let file_path := "temp/" +:+ name in
  let s1 := with_fs (fun m => <[file_path := payload]> m) s in
  let s2 := called file_path s1 in
  req_file req = Some (name, payload) ->
  Web_transcribe w (Some cuda) req s
  = match open_error w file_path with
    | Some e => (inl e, s)
    | None =>
        match load_model_error w model_name device with
        | Some e => (inl e, s1)
        | None =>
            match engine w model_name device true None file_path with
            | inl e => (inl e, s2)
            | inr result =>
                (inr (res_text result), with_fs (fun m => delete file_path m) s2)
            end
        end
    end.
Proof.
  intros model_name device file_path s1 s2 Hfile.
  unfold Web_transcribe. rewrite Hfile. unfold bind at 1. unfold ret at 1.
  unfold bind at 1. unfold ret at 1. cbn [fst snd].
  fold model_name device file_path.
  unfold bind at 1. unfold save_upload.
  destruct (open_error w file_path) as [e|]; [reflexivity|].
  unfold modify at 1. fold s1.
  unfold bind at 1. unfold load_model.
  destruct (load_model_error w model_name device) as [e|]; [reflexivity|].
  unfold ret at 1.
  unfold bind at 1. unfold model_transcribe.
  unfold bind at 1. unfold modify at 1. unfold bind at 1. unfold ret at 1.
  cbn [fst snd]. fold (called file_path s1). fold s2.
  destruct (engine w model_name device true None file_path) as [e|result];
    [reflexivity|].
  unfold ret at 1.
  unfold bind at 1. unfold os_remove. unfold bind at 1. unfold get at 1.
  assert (Hlook : fs s2 !! file_path = Some payload) by apply lookup_insert_eq.
  rewrite Hlook. reflexivity.
Qed.

(** When the model loads and the engine answers, the upload is removed
    again. *)
Lemma Web_transcribe_success (cuda : bool) (req : Request) (name payload : string)
    (result : Result) (s : State) :
  let model_name := match req_model req with Some m => m | None => "base" end in
  let device := if cuda then "cuda" else "cpu" in
  let file_path := "temp/" +:+ name in
  let run := Web_transcribe w (Some cuda) req s in
  req_file req = Some (name, payload) ->
  open_error w file_path = None ->
  load_model_error w model_name device = None ->
  engine w model_name device true None file_path = inr result ->
  fst run = inr (res_text result) /\ fs (snd run) !! file_path = None.
Proof.
  intros model_name device file_path run Hfile Hopen Hload Heng. subst run.
  rewrite (Web_transcribe_run cuda req name payload s Hfile).
  fold model_name device file_path. rewrite Hopen, Hload, Heng.
  split; [reflexivity | apply lookup_delete_eq].
Qed.


End Endpoint.


(** ** The batch of the interactive path *)

Section Batch.

Variable w : World.
Variable clicks : Clicks.
Variables model_name output_format : string.
Variable language : option string.
Variable device : string.

Abbreviation loop := (App_batch_loop w clicks (model_name, device) output_format
                        language device).
Abbreviation outputs := (batch_outputs w model_name device output_format language).
Abbreviation after := (after_files w clicks model_name output_format language device).

(** One turn of the loop: the click that may have come, the test of
    the flag, then the file. *)
Lemma App_batch_loop_step (total i : nat) (audio_file : string) (rest : list string)
    (output_files : list string) (s : State) :
  loop total i (audio_file :: rest) output_files s =
    let s0 := clicked (click_before clicks i) s in
    if negb (processing (app s0)) then (inr output_files, s0)
    else loop total (S i) rest (output_files ++ outputs [audio_file])
           (after_file w clicks model_name output_format language device
              total i audio_file s0).
Proof.
  cbn [App_batch_loop]. unfold bind at 1. rewrite deliver_run.
  unfold bind at 1. unfold get at 1. cbv zeta.
  destruct (processing (app (clicked (click_before clicks i) s))); [|reflexivity].
  cbn [negb]. unfold bind at 1. unfold try_except. unfold bind at 1.
  rewrite App_batch_file_run. unfold after_file, batch_outputs.
  fold (file_status total i audio_file).
  destruct (file_outcome w model_name device output_format language audio_file)
    as [e|result].
  - unfold bind at 1. unfold log at 1. unfold modify at 1. unfold ret at 1.
    now rewrite app_nil_r.
  - reflexivity.
Qed.

Lemma outputs_app (l1 l2 : list string) : outputs (l1 ++ l2) = outputs l1 ++ outputs l2.
Proof.
  induction l1 as [|f l1 IH]; [reflexivity|].
  cbn [List.app batch_outputs].
  destruct (file_outcome w model_name device output_format language f);
    [exact IH | cbn [List.app]; now rewrite IH].
Qed.

Lemma processing_after_file (total i : nat) (audio_file : string) (s : State) :
  processing (app s) = true ->
  processing (app (after_file w clicks model_name output_format language device
                     total i audio_file s))
  = negb (click_during clicks i).
Proof.
  intros Hp. unfold after_file.
  assert (H : forall x, processing (app x) = true ->
            processing (app (clicked (click_during clicks i) x))
            = negb (click_during clicks i)).
  { intros x Hx. unfold clicked, cancelled.
    destruct (click_during clicks i); [|exact Hx]. now rewrite Hx. }
  destruct (file_outcome w model_name device output_format language audio_file)
    as [e|result].
  - cbn [logged with_app app app_add_log processing]. apply H. exact Hp.
  - cbn [logged with_app app app_add_log processing].
    unfold written. destruct (file_text w output_format result);
      cbn [with_fs app]; apply H; exact Hp.
Qed.

(** The loop over a quiet stretch of files. *)
Lemma App_batch_loop_quiet (total : nat) (pre rest : list string) :
  forall (i : nat) (output_files : list string) (s : State),
    processing (app s) = true ->
    quiet clicks i (length pre) ->
    loop total i (pre ++ rest) output_files s
    = loop total (i + length pre) rest (output_files ++ outputs pre)
        (after total i pre s).
Proof.
  induction pre as [|f pre IH]; intros i output_files s Hp Hq.
  - cbn [List.app length after_files batch_outputs].
    now rewrite Nat.add_0_r, app_nil_r.
  - cbn [List.app length after_files]. rewrite App_batch_loop_step. cbv zeta.
    destruct (Hq i ltac:(cbn [length]; lia)) as [Hb Hd].
    rewrite Hb. cbn [clicked]. rewrite Hp. cbn [negb].
    destruct pre as [|g pre].
    + cbn [List.app length after_files]. rewrite Nat.add_1_r.
      cbn [batch_outputs]. reflexivity.
    + rewrite IH.
      * replace (S i + length (g :: pre))%nat with (i + S (length (g :: pre)))%nat
          by lia.
        rewrite <- app_assoc.
        change (f :: g :: pre) with ([f] ++ g :: pre). now rewrite outputs_app.
      * rewrite processing_after_file by exact Hp.
        rewrite Hd; [reflexivity | cbn [length]; lia].
      * intros j Hj. destruct (Hq j ltac:(cbn [length] in *; lia)) as [Hb' Hd'].
        split; [exact Hb'|]. intros Hlt. apply Hd'. cbn [length] in *. lia.
Qed.

(** What a file, and a stretch of files, leave in the state. *)
Lemma app_written (output_file : string) (result : Result) (s : State) :
  app (written w output_file output_format result s) = app s.
Proof. unfold written. now destruct (file_text w output_format result). Qed.


Lemma flag_ok_clicked (click : bool) (s : State) :
  flag_ok s -> flag_ok (clicked click s).
Proof.
  unfold clicked, cancelled, flag_ok. destruct click; [|auto].
  destruct (processing (app s)) eqn:Hp; [reflexivity | rewrite Hp; auto].
Qed.

Lemma processing_clicked_true (s : State) : processing (app (clicked true s)) = false.
Proof.
  unfold clicked, cancelled. destruct (processing (app s)) eqn:Hp;
    [reflexivity | exact Hp].
Qed.

Lemma engine_calls_after_file (total i : nat) (audio_file : string) (s : State) :
  engine_calls (after_file w clicks model_name output_format language device
                  total i audio_file s)
  = engine_calls s ++ [audio_file].
Proof.
  unfold after_file.
  destruct (file_outcome w model_name device output_format language audio_file);
    cbn [logged with_app engine_calls];
    rewrite ?engine_calls_written, engine_calls_clicked; reflexivity.
Qed.


Lemma flag_ok_after_file (total i : nat) (audio_file : string) (s : State) :
  processing (app s) = true ->
  flag_ok (after_file w clicks model_name output_format language device
             total i audio_file s).
Proof.
  intros Hp. unfold after_file.
  set (s1 := called audio_file
               (logged ("Transcribing: " +:+ audio_file)
                  (with_app (app_set_status (file_status total i audio_file)) s))).
  assert (H1 : flag_ok s1).
  { unfold flag_ok. subst s1. cbn [called logged with_app with_engine_calls app
      app_add_log app_set_status processing]. congruence. }
  assert (H2 := flag_ok_clicked (click_during clicks i) s1 H1).
  destruct (file_outcome w model_name device output_format language audio_file);
    unfold flag_ok in *;
    cbn [logged with_app app app_add_log processing status_var];
    rewrite ?app_written; exact H2.
Qed.

Lemma engine_calls_after_files (total : nat) (files : list string) :
  forall (i : nat) (s : State),
    engine_calls (after total i files s) = engine_calls s ++ files.
Proof.
  induction files as [|f files IH]; intros i s; cbn [after_files].
  - now rewrite app_nil_r.
  - rewrite IH, engine_calls_after_file, <- app_assoc. reflexivity.
Qed.


(** After a quiet stretch the flag is set unless Cancel came during
    its last file, and the status line is in order. *)
Lemma flag_after_quiet (total : nat) (files : list string) :
  forall (i : nat) (s : State),
    processing (app s) = true ->
    quiet clicks i (length files) ->
    flag_ok (after total i files s)
    /\ processing (app (after total i files s))
       = match files with
         | [] => true
         | _ :: _ => negb (click_during clicks (i + length files - 1))
         end.
Proof.
  induction files as [|f files IH]; intros i s Hp Hq; cbn [after_files].
  - split; [unfold flag_ok; congruence | exact Hp].
  - destruct files as [|g files].
    + cbn [after_files length]. split; [now apply flag_ok_after_file|].
      rewrite processing_after_file by exact Hp.
      now replace (i + 1 - 1)%nat with i by lia.
    + destruct (IH (S i)
                  (after_file w clicks model_name output_format language device
                     total i f s)) as [Hok Hflag].
      * rewrite processing_after_file by exact Hp.
        destruct (Hq i ltac:(cbn [length]; lia)) as [_ Hd].
        rewrite Hd; [reflexivity | cbn [length]; lia].
      * intros j Hj. destruct (Hq j ltac:(cbn [length] in *; lia)) as [Hb' Hd'].
        split; [exact Hb'|]. intros Hlt. apply Hd'. cbn [length] in *. lia.
      * split; [exact Hok|]. rewrite Hflag.
        now replace (S i + length (g :: files) - 1)%nat
          with (i + length (f :: g :: files) - 1)%nat by (cbn [length]; lia).
Qed.


End Batch.

(** ** The worker thread *)

Section Worker.

Variable w : World.
Variable clicks : Clicks.

Lemma App_batch_transcribe_run (directory model_name output_format : string)
    (language : option string) (device : string) (s : State) :
  App_batch_transcribe w clicks directory model_name output_format language device s =
    match collect_audio_files w directory with
    | [] => (inr [], logged "No audio files found in the directory." s)
    | _ :: _ =>
        let files := collect_audio_files w directory in
        let s1 := logged ("Loading model: " +:+ model_name +:+ " on " +:+ device)
                    (logged ("Found " +:+ Py.decimal (N.of_nat (length files))
                             +:+ " audio files to process") s) in
        match load_model_error w model_name device with
        | Some e => (inl e, s1)
        | None =>
            App_batch_loop w clicks (model_name, device) output_format language
              device (length files) 0 files [] s1
        end
    end.
Proof.
  unfold App_batch_transcribe.
  destruct (collect_audio_files w directory) as [|f files]; [reflexivity|].
  cbv zeta. unfold bind at 1. unfold log at 1. unfold modify at 1.
  unfold bind at 1. unfold log at 1. unfold modify at 1.
  unfold bind at 1. unfold load_model.
  destruct (load_model_error w model_name device); reflexivity.
Qed.

Lemma App_batch_transcribe_files (directory model_name output_format : string)
    (language : option string) (device : string) (s : State) :
  collect_audio_files w directory <> [] ->
  load_model_error w model_name device = None ->
  let files := collect_audio_files w directory in
  App_batch_transcribe w clicks directory model_name output_format language device s =
    App_batch_loop w clicks (model_name, device) output_format language
      device (length files) 0 files []
      (logged ("Loading model: " +:+ model_name +:+ " on " +:+ device)
         (logged ("Found " +:+ Py.decimal (N.of_nat (length files))
                  +:+ " audio files to process") s)).
Proof.
  intros Hne Hload files. subst files. rewrite App_batch_transcribe_run.
  destruct (collect_audio_files w directory); [contradiction|].
  cbv zeta. now rewrite Hload.
Qed.

(** The worker, from the state it is started in to the state it ends
    in. *)
Lemma process_transcription_run (s : State) :
  let run := pipeline w clicks (app s) (worker_start w s) in
  process_transcription w clicks s = (inr tt, finished clicks (fst run) (snd run)).
Proof.
  intros run. subst run. unfold process_transcription, try_finally, try_except.
  unfold bind at 1. unfold get at 1. unfold bind at 1. rewrite get_device_run.
  fold (worker_device w (app s)). fold (worker_language (app s)).
  unfold bind at 1. unfold set_progress at 1. unfold modify at 1.
  unfold bind at 1. unfold set_status at 1. unfold modify at 1.
  unfold bind at 1. unfold log at 1. unfold modify at 1.
  fold (logged ("Starting transcription with model: " +:+ model_var (app s)
                +:+ " on " +:+ worker_device w (app s))
          (with_app (app_set_status "Starting transcription...")
             (with_app (app_set_progress 0) s))).
  fold (worker_start w s).
  unfold bind at 1. fold (pipeline w clicks (app s)).
  unfold finished.
  destruct (pipeline w clicks (app s) (worker_start w s)) as [[e|[]] s1];
    cbn [fst snd]; cbv zeta.
  - reflexivity.
  - unfold bind at 1. rewrite deliver_run.
    unfold bind at 1. unfold set_progress at 1. unfold modify at 1.
    unfold bind at 1. unfold get at 1.
    destruct (processing
                (app (with_app (app_set_progress 100)
                        (clicked (click_after clicks) s1)))); reflexivity.
Qed.


End Worker.

(** ** Progress at the end of a job *)

Section Progress.



(** The end state of the worker when the pipeline returned. *)
Lemma finished_returned (clicks : Clicks) (s : State) :
  flag_ok s ->
  job_state (app (finished clicks (inr tt) s))
  = (if processing (app (clicked (click_after clicks) s)) then Completed
     else Cancelled)
  /\ progress_var (app (finished clicks (inr tt) s)) = 100%Q.
Proof.
  intros Hok. assert (Hok' := flag_ok_clicked (click_after clicks) s Hok).
  unfold finished. cbv zeta.
  cbn [with_app app app_set_progress processing].
  unfold flag_ok in Hok'.
  destruct (processing (app (clicked (click_after clicks) s))) eqn:Hp.
  - split; reflexivity.
  - split; [|reflexivity].
    unfold job_state.
    cbn [with_app app app_set_progress app_set_processing processing status_var].
    rewrite (Hok' eq_refl). reflexivity.
Qed.




(** The estimator thread: each turn of its loop adds at most 0.5 to a
    value below 95, so what it writes stays below 100. *)
Lemma increment_for_bounds (step : Q) :
  (0 < increment_for step)%Q /\ (increment_for step <= 0.5)%Q.
Proof.
  unfold increment_for.
  destruct (Qlt_le_dec step 20); [split; lra|].
  destruct (Qlt_le_dec step 50); [split; lra|].
  destruct (Qlt_le_dec step 80); split; lra.
Qed.

Lemma simulate_progress_step_below_100 (step : Q) :
  (step < 95)%Q ->
  (step < Qred (step + increment_for step))%Q
  /\ (Qred (step + increment_for step) < 100)%Q.
Proof.
  intros H. destruct (increment_for_bounds step) as [H1 H2].
  rewrite Qred_correct. split; lra.
Qed.

(** Left alone with the flag set, the estimator stops at 95 after 740
    turns. *)
Lemma simulate_progress_undisturbed :
  let run := simulate_progress 741 (fun _ => ret tt)
               (snd (start_transcription batch_world (chosen "d" "txt" "auto"))) in
  fst run = inr (Some 95%Q) /\ progress_var (app (snd run)) = 95%Q.
Proof. vm_compute. split; reflexivity. Qed.

(** Between the moment the worker has set 100 and the moment it clears
    the flag, a turn of the estimator replaces the 100 by its own
    value. *)
Lemma simulate_progress_overwrites :
  let s := with_app (app_set_progress 100)
             (snd (start_transcription batch_world (chosen "a.mp3" "txt" "auto"))) in
  progress_var (app s) = 100%Q
  /\ progress_var (app (snd (simulate_progress_loop 1 (fun _ => ret tt) 84 42 s)))
     = 42.3%Q.
Proof. vm_compute. split; reflexivity. Qed.

End Progress.

(** ** Cancelling a batch *)

Section Cancel.

Variable w : World.
Variable clicks : Clicks.

Lemma batch_outputs_all_ok (model_name device output_format : string)
    (language : option string) (files : list string) :
  (forall f, In f files ->
     exists r, file_outcome w model_name device output_format language f = inr r) ->
  batch_outputs w model_name device output_format language files
  = map (fun f => output_path f output_format) files.
Proof.
  induction files as [|f files IH]; intros Hall; [reflexivity|].
  cbn [batch_outputs map].
  destruct (Hall f (or_introl eq_refl)) as [r Hr]. rewrite Hr.
  f_equal. apply IH. intros g Hg. apply Hall. now right.
Qed.



End Cancel.



(** ** A failing file in a batch *)

Section Failure.

Variable w : World.
Variables model_name output_format : string.
Variable language : option string.
Variable device : string.

Abbreviation outcome := (file_outcome w model_name device output_format language).
Abbreviation outputs := (batch_outputs w model_name device output_format language).
Abbreviation errors := (batch_errors w model_name device output_format language).

Lemma quiet_no_clicks (i n : nat) : quiet no_clicks i n.
Proof. intros j _. split; reflexivity. Qed.

Lemma prefix_append (a b : string) : String.prefix a (a +:+ b) = true.
Proof.
  induction a as [|c a IH]; [now destruct b|].
  change (String c a +:+ b) with (String c (a +:+ b)). cbn [String.prefix].
  destruct (ascii_dec c c); [exact IH | contradiction].
Qed.

Lemma is_error_line_error_line (f : string) (e : exn) :
  is_error_line (error_line f e) = true.
Proof. apply prefix_append. Qed.

(** The error lines among the lines of a batch are those of the files
    that fail. *)
Lemma error_lines_of_batch_log (files : list string) :
  List.filter is_error_line
    (batch_log w model_name device output_format language files)
  = errors files.
Proof.
  induction files as [|f files IH]; [reflexivity|].
  cbn [batch_log batch_errors List.filter].
  change (is_error_line ("Transcribing: " +:+ f)) with false. cbv iota.
  destruct (outcome f) as [e|r].
  - rewrite is_error_line_error_line. now rewrite IH.
  - change (is_error_line ("Transcription saved to: "
                           +:+ output_path f output_format)) with false.
    cbv iota. exact IH.
Qed.

Lemma error_lines_of_batch_prints (files : list string) :
  List.filter is_error_line
    (batch_prints w model_name device output_format language files)
  = errors files.
Proof.
  induction files as [|f files IH]; [reflexivity|].
  cbn [batch_prints batch_errors List.filter].
  change (is_error_line ("Loading model: " +:+ model_name +:+ " on " +:+ device))
    with false.
  change (is_error_line ("Transcribing: " +:+ f)) with false. cbv iota.
  destruct (outcome f) as [e|r].
  - rewrite is_error_line_error_line. now rewrite IH.
  - change (is_error_line ("Transcription saved to: "
                           +:+ output_path f output_format)) with false.
    cbv iota. exact IH.
Qed.

Lemma errors_app (l1 l2 : list string) : errors (l1 ++ l2) = errors l1 ++ errors l2.
Proof.
  induction l1 as [|f l1 IH]; [reflexivity|].
  cbn [List.app batch_errors].
  destruct (outcome f); [cbn [List.app]; now rewrite IH | exact IH].
Qed.

Lemma errors_all_ok (files : list string) :
  (forall f, In f files -> exists r, outcome f = inr r) -> errors files = [].
Proof.
  induction files as [|f files IH]; intros Hall; [reflexivity|].
  cbn [batch_errors]. destruct (Hall f (or_introl eq_refl)) as [r Hr]. rewrite Hr.
  apply IH. intros g Hg. apply Hall. now right.
Qed.

(** With one failing file [k] among files that succeed: the outputs
    are those of the other files and the one error line is that of
    [k]. *)
Lemma one_failure (pre post : list string) (k : string) (e : exn) :
  (forall f, In f (pre ++ post) -> exists r, outcome f = inr r) ->
  outcome k = inl e ->
  outputs (pre ++ k :: post)
  = map (fun f => output_path f output_format) (pre ++ post)
  /\ errors (pre ++ k :: post) = [error_line k e].
Proof.
  intros Hall Hk.
  assert (Hpre : forall f, In f pre -> exists r, outcome f = inr r)
    by (intros f Hf; apply Hall, in_or_app; now left).
  assert (Hpost : forall f, In f post -> exists r, outcome f = inr r)
    by (intros f Hf; apply Hall, in_or_app; now right).
  split.
  - rewrite outputs_app. cbn [batch_outputs]. rewrite Hk.
    rewrite !batch_outputs_all_ok by assumption. now rewrite map_app.
  - rewrite errors_app. cbn [batch_errors]. rewrite Hk.
    now rewrite !errors_all_ok by assumption.
Qed.

(** The log of a stretch of files when Cancel is never pressed. *)
Lemma log_after_files (total : nat) (files : list string) :
  forall (i : nat) (s : State),
    log_text (app (after_files w no_clicks model_name output_format language device
                     total i files s))
    = log_text (app s) ++ batch_log w model_name device output_format language files.
Proof.
  induction files as [|f files IH]; intros i s; cbn [after_files batch_log].
  - now rewrite app_nil_r.
  - rewrite IH. unfold after_file. cbn [no_clicks click_during clicked].
    destruct (outcome f) as [e|r];
      cbn [logged called with_app with_engine_calls app app_add_log log_text];
      rewrite ?app_written;
      cbn [logged called with_app with_engine_calls app app_add_log log_text
           app_set_status];
      now rewrite <- !app_assoc.
Qed.

(** One turn of the loop of the command line batch. *)
Lemma batch_transcribe_loop_step (f : string) (files output_files : list string)
    (s : State) :
  load_model_error w model_name device = None ->
  batch_transcribe_loop w model_name output_format language (Some device)
    (f :: files) output_files s
  = batch_transcribe_loop w model_name output_format language (Some device)
      files (output_files ++ outputs [f])
      (cli_after_file w model_name device output_format language f s).
Proof.
  intros Hload. cbn [batch_transcribe_loop batch_outputs].
  unfold bind at 1. unfold try_except. unfold bind at 1.
  rewrite transcribe_audio_run. cbn [cli_device]. rewrite Hload.
  unfold cli_after_file.
  destruct (outcome f) as [e|r]; [|reflexivity].
  unfold bind at 1. unfold print at 1. unfold modify at 1. unfold ret at 1.
  now rewrite app_nil_r.
Qed.

Lemma stdout_cli_after_file (f : string) (s : State) :
  stdout (cli_after_file w model_name device output_format language f s)
  = stdout s ++ batch_prints w model_name device output_format language [f].
Proof.
  unfold cli_after_file, printed, called, written. cbn [batch_prints].
  destruct (outcome f) as [e|r]; [|destruct (file_text w output_format r)];
    cbn [with_fs with_engine_calls with_stdout stdout];
    now rewrite <- !app_assoc.
Qed.

(** The loop of the command line batch. *)
Lemma batch_transcribe_loop_run (files : list string) :
  load_model_error w model_name device = None ->
  forall (output_files : list string) (s : State),
    let run := batch_transcribe_loop w model_name output_format language
                 (Some device) files output_files s in
    fst run = inr (output_files ++ outputs files)
    /\ stdout (snd run)
       = stdout s ++ batch_prints w model_name device output_format language files.
Proof.
  intros Hload. induction files as [|f files IH]; intros output_files s run;
    subst run.
  - cbn. now rewrite !app_nil_r.
  - rewrite batch_transcribe_loop_step by exact Hload.
    destruct (IH (output_files ++ outputs [f])
                (cli_after_file w model_name device output_format language f s))
      as [Hret Hout].
    rewrite Hret, Hout, stdout_cli_after_file. split.
    + rewrite <- app_assoc. f_equal. f_equal.
      change (f :: files) with ([f] ++ files).
      now rewrite (outputs_app w model_name output_format language device).
    + rewrite <- app_assoc. reflexivity.
Qed.

End Failure.

Section OneFailure.

Variable w : World.

(** The batch of the interactive path when Cancel is never pressed. *)
Lemma App_batch_transcribe_no_clicks (directory model_name output_format : string)
    (language : option string) (device : string) (s : State) :
  processing (app s) = true ->
  collect_audio_files w directory <> [] ->
  load_model_error w model_name device = None ->
  let files := collect_audio_files w directory in
  let run := App_batch_transcribe w no_clicks directory model_name output_format
               language device s in
  fst run = inr (batch_outputs w model_name device output_format language files)
  /\ log_text (app (snd run))
     = log_text (app s)
       ++ ["Found " +:+ Py.decimal (N.of_nat (length files))
           +:+ " audio files to process";
           "Loading model: " +:+ model_name +:+ " on " +:+ device]
       ++ batch_log w model_name device output_format language files
  /\ processing (app (snd run)) = true.
Proof.
  intros Hp Hne Hload files run. subst run.
  rewrite App_batch_transcribe_files by assumption. cbv zeta. fold files.
  set (s1 := logged _ (logged _ s)).
  assert (Hp1 : processing (app s1) = true) by exact Hp.
  assert (Hrun : App_batch_loop w no_clicks (model_name, device) output_format
                   language device (length files) 0 files [] s1
                 = (inr (batch_outputs w model_name device output_format language
                           files),
                    after_files w no_clicks model_name output_format language
                      device (length files) 0 files s1)).
  { rewrite <- (app_nil_r files) at 2.
    now rewrite (App_batch_loop_quiet w no_clicks model_name output_format language
                   device _ files [] 0 [] s1 Hp1 (quiet_no_clicks 0 _)). }
  rewrite Hrun. cbn [fst snd].
  split; [reflexivity|]. split.
  - rewrite log_after_files. subst s1.
    cbn [logged with_app app app_add_log log_text]. now rewrite <- !app_assoc.
  - destruct (flag_after_quiet w no_clicks model_name output_format language device
                (length files) files 0 s1 Hp1 (quiet_no_clicks 0 _)) as [_ Hflag].
    rewrite Hflag. now destruct files.
Qed.

(** The batch of the command line path. *)
Lemma batch_transcribe_run (directory model_name output_format : string)
    (language : option string) (device : string) (s : State) :
  collect_audio_files w directory <> [] ->
  load_model_error w model_name device = None ->
  let files := collect_audio_files w directory in
  let run := batch_transcribe w directory model_name output_format language
               (Some device) s in
  fst run = inr (batch_outputs w model_name device output_format language files)
  /\ stdout (snd run)
     = stdout s
       ++ ["Found " +:+ Py.decimal (N.of_nat (length files))
           +:+ " audio files to process"]
       ++ batch_prints w model_name device output_format language files.
Proof.
  intros Hne Hload files run.
  assert (Hrun : run = batch_transcribe_loop w model_name output_format language
                         (Some device) files []
                         (printed ("Found " +:+ Py.decimal (N.of_nat (length files))
                                   +:+ " audio files to process") s)).
  { subst run files. unfold batch_transcribe.
    destruct (collect_audio_files w directory); [contradiction | reflexivity]. }
  rewrite Hrun.
  destruct (batch_transcribe_loop_run w model_name output_format language device
              files Hload []
              (printed ("Found " +:+ Py.decimal (N.of_nat (length files))
                        +:+ " audio files to process") s)) as [Hret Hout].
  split; [exact Hret|]. rewrite Hout. cbn [printed with_stdout stdout].
  now rewrite <- app_assoc.
Qed.

(** C2 as the code has it: with one file k that fails among files that
    succeed, and Cancel never pressed, the batch goes on after k and
    returns the output paths of the other files, one fewer than the
    files; the failure is not part of what is returned: it is one line
    of the log (of the standard output on the command line) that names
    the path of k and the message; and the job ends Completed. *)
Theorem one_failure_does_not_stop_batch (s : State)
    (pre : list string) (k : string) (post : list string) (e : exn) :
  let a := app s in
  let files := pre ++ k :: post in
  let outputs := map (fun f => output_path f (format_var a)) (pre ++ post) in
  let batch := App_batch_transcribe w no_clicks (input_path a) (model_var a)
                 (format_var a) (worker_language a) (worker_device w a)
                 (worker_start w s) in
  let final := snd (process_transcription w no_clicks s) in
  let cli := batch_transcribe w (input_path a) (model_var a) (format_var a)
               (worker_language a) (Some (worker_device w a)) s in
  processing a = true ->
  isdir w (input_path a) = true ->
  collect_audio_files w (input_path a) = files ->
  load_model_error w (model_var a) (worker_device w a) = None ->
  (forall f, In f (pre ++ post) ->
     exists r, file_outcome w (model_var a) (worker_device w a) (format_var a)
                 (worker_language a) f = inr r) ->
  file_outcome w (model_var a) (worker_device w a) (format_var a)
    (worker_language a) k = inl e ->
  fst batch = inr outputs
  /\ length outputs = (length files - 1)%nat
  /\ (exists added,
        log_text (app (snd batch)) = log_text (app (worker_start w s)) ++ added
        /\ List.filter is_error_line added = [error_line k e])
  /\ job_state (app final) = Completed
  /\ fst cli = inr outputs
  /\ (exists lines,
        stdout (snd cli) = stdout s ++ lines
        /\ List.filter is_error_line lines = [error_line k e]).
Proof.
  intros a files outputs batch final cli Hp Hdir Hfiles Hload Hall Hk.
  assert (Hne : collect_audio_files w (input_path a) <> [])
    by (rewrite Hfiles; subst files; destruct pre; discriminate).
  destruct (one_failure w (model_var a) (format_var a) (worker_language a)
              (worker_device w a) pre post k e Hall Hk) as [Houts Herrs].
  assert (Hp0 : processing (app (worker_start w s)) = true) by exact Hp.
  destruct (App_batch_transcribe_no_clicks (input_path a) (model_var a)
              (format_var a) (worker_language a) (worker_device w a)
              (worker_start w s) Hp0 Hne Hload) as (Hret & Hlog & Hon).
  destruct (batch_transcribe_run (input_path a) (model_var a) (format_var a)
              (worker_language a) (worker_device w a) s Hne Hload)
    as (Hcret & Hcout).
  fold batch in Hret, Hlog, Hon. fold cli in Hcret, Hcout.
  rewrite Hfiles in Hret, Hlog, Hcret, Hcout. fold files in Houts, Herrs.
  rewrite Houts in Hret, Hcret.
  split; [exact Hret|]. split.
  { subst outputs files. rewrite length_map, !length_app. cbn [length]. lia. }
  split.
  { eexists. split; [exact Hlog|].
    rewrite List.filter_app. cbn [List.filter].
    change (is_error_line ("Found " +:+ _)) with false.
    change (is_error_line ("Loading model: " +:+ _)) with false. cbv iota.
    rewrite error_lines_of_batch_log. exact Herrs. }
  split.
  { subst final. rewrite process_transcription_run. cbn [snd].
    unfold pipeline. fold a. rewrite Hdir. unfold bind. fold batch.
    assert (Hok : flag_ok (snd batch)) by (unfold flag_ok; congruence).
    destruct batch as [[e'|out] s1]; cbn [fst snd] in *; [discriminate|].
    unfold ret. cbn [fst snd].
    destruct (finished_returned no_clicks s1 Hok) as [Hj _].
    rewrite Hj. cbn [no_clicks click_after clicked]. now rewrite Hon. }
  split; [exact Hcret|].
  eexists. split; [exact Hcout|].
  rewrite List.filter_app. cbn [List.filter].
  change (is_error_line ("Found " +:+ _)) with false. cbv iota.
  rewrite error_lines_of_batch_prints. exact Herrs.
Qed.

End OneFailure.

Lemma one_failure_does_not_stop_batch_witness :
  let s := snd (start_transcription batch_world (chosen "d" "txt" "auto")) in
  fst (App_batch_transcribe batch_world no_clicks "d" "base" "txt" None "cpu"
         (worker_start batch_world s)) = inr ["d/a.txt"; "d/c.txt"]
  /\ job_state (app (snd (process_transcription batch_world no_clicks s)))
     = Completed
  /\ fst (batch_transcribe batch_world "d" "base" "txt" None (Some "cpu") s)
     = inr ["d/a.txt"; "d/c.txt"].
Proof.
  intros s.
  assert (Hall : forall f, In f (["d/a.mp3"] ++ ["d/c.wav"]) ->
            exists r, file_outcome batch_world "base" "cpu" "txt" None f = inr r).
  { intros f [<-|[<-|[]]]; eexists; reflexivity. }
  destruct (one_failure_does_not_stop_batch batch_world s ["d/a.mp3"] "d/b.MP3"
              ["d/c.wav"] corrupt eq_refl eq_refl eq_refl eq_refl Hall eq_refl)
    as (H1 & _ & _ & H4 & H5 & _).
  split; [exact H1|]. split; [exact H4 | exact H5].
Defined.

(** C2 as stated fails on what is returned: for the three audio files
    of d, of which b.MP3 fails, both batches return the two output
    paths and nothing else; the failure of b.MP3 is found in the log
    and on the standard output only. *)
Lemma failure_not_in_returned_value :
  let s := snd (start_transcription batch_world (chosen "d" "txt" "auto")) in
  let batch := App_batch_transcribe batch_world no_clicks "d" "base" "txt" None "cpu"
                 (worker_start batch_world s) in
  let cli := batch_transcribe batch_world "d" "base" "txt" None (Some "cpu") s in
  collect_audio_files batch_world "d" = ["d/a.mp3"; "d/b.MP3"; "d/c.wav"]
  /\ fst batch = inr ["d/a.txt"; "d/c.txt"]
  /\ fst cli = inr ["d/a.txt"; "d/c.txt"]
  /\ ~ In "d/b.MP3" ["d/a.txt"; "d/c.txt"]
  /\ In (error_line "d/b.MP3" corrupt) (log_text (app (snd batch)))
  /\ In (error_line "d/b.MP3" corrupt) (stdout (snd cli)).
Proof.
  vm_compute. repeat split; auto 12.
  intros [H|[H|[]]]; discriminate.
Qed.

(** ** Examples of the primitives *)

Example splitext_last_dot : Py.splitext_root "dir.d/a.b.mp3" = "dir.d/a.b".
Proof. reflexivity. Qed.

Example splitext_hidden_file : Py.splitext_root "dir.d/.bashrc" = "dir.d/.bashrc".
Proof. reflexivity. Qed.

Example splitext_no_dot : Py.splitext_root "dir.d/abc" = "dir.d/abc".
Proof. reflexivity. Qed.

Example strip_both_sides : Py.strip ("  a b" +:+ LF +:+ " ") = "a b".
Proof. reflexivity. Qed.

Example join_directory : Py.path_join "d" "a.mp3" = "d/a.mp3".
Proof. reflexivity. Qed.

Example extension_any_case : is_audio "B.Mp3" = true /\ is_audio "notes.txt" = false.
Proof. split; reflexivity. Qed.

Example basename_last_component : Py.basename "d/e/a.mp3" = "a.mp3".
Proof. reflexivity. Qed.

Example format_0d_sign : Py.format_0d 3 (-5) = "-05" /\ Py.format_0d 2 7 = "07".
Proof. split; reflexivity. Qed.

Example batch_world_files :
  collect_audio_files batch_world "d" = ["d/a.mp3"; "d/b.MP3"; "d/c.wav"].
Proof. reflexivity. Qed.

Example timestamp_vtt : format_timestamp 3661.25 "vtt" = "01:01:01.250".
Proof. reflexivity. Qed.

(** * Further properties of the code *)

(** ** Starting, cancelling and choosing *)

Section Buttons.

Variable w : World.

Lemma cancel_transcription_run (s : State) :
  cancel_transcription s = (inr tt, cancelled s).
Proof. exact (deliver_run true s). Qed.

Lemma start_transcription_cases (s : State) :
  let run := start_transcription w s in
  let ok := negb (processing (app s)) && Py.truthy (input_path (app s))
            && path_exists w (input_path (app s)) in
  fst run = inr ok
  /\ (if ok then snd run = with_app (app_set_processing true) s
      else exists d, snd run = with_app (app_add_dialog d) s
                     /\ (processing (app s) = true ->
                         d = showwarning "Warning" "Transcription already in progress!")).
Proof.
  intros run ok. subst run ok. unfold start_transcription, bind, get.
  destruct (processing (app s)) eqn:Hp; cbn [negb andb].
  - split; [reflexivity|]. eexists. split; [reflexivity | reflexivity].
  - destruct (Py.truthy (input_path (app s))); cbn [negb andb].
    + destruct (path_exists w (input_path (app s))); cbn [negb].
      * split; reflexivity.
      * split; [reflexivity|]. eexists. split; [reflexivity | discriminate].
    + split; [reflexivity|]. eexists. split; [reflexivity | discriminate].
Qed.

(** [start_transcription] starts the worker exactly when no job is
    running, a path is entered and the path exists.  Otherwise it shows
    one message box and changes nothing else (the warning that a
    transcription is in progress when a job is running, which is left
    as it is); when it starts the worker it sets the flag and changes
    nothing else. *)
Theorem start_transcription_outcome (s : State) :
  let run := start_transcription w s in
  let ok := negb (processing (app s)) && Py.truthy (input_path (app s))
            && path_exists w (input_path (app s)) in
  fst run = inr ok
  /\ (if ok then snd run = with_app (app_set_processing true) s
      else exists d, snd run = with_app (app_add_dialog d) s
                     /\ (processing (app s) = true ->
                         d = showwarning "Warning" "Transcription already in progress!")).
Proof. exact (start_transcription_cases s). Qed.

(** Pressing Cancel when no job is running changes nothing, and pressing
    it a second time changes nothing more: the flag is cleared and one
    line is logged, once. *)
Theorem cancel_transcription_once (s : State) :
  (processing (app s) = false -> snd (cancel_transcription s) = s)
  /\ processing (app (snd (cancel_transcription s))) = false
  /\ snd (cancel_transcription (snd (cancel_transcription s)))
     = snd (cancel_transcription s)
  /\ fs (snd (cancel_transcription s)) = fs s
  /\ progress_var (app (snd (cancel_transcription s))) = progress_var (app s).
Proof.
  rewrite !cancel_transcription_run. cbn [snd]. unfold cancelled.
  destruct (processing (app s)) eqn:Hp.
  - cbn [logged with_app app app_add_log app_set_status app_set_processing processing].
    repeat split; discriminate.
  - rewrite Hp. repeat split; auto.
Qed.

Lemma cancel_transcription_once_witness :
  snd (cancel_transcription init_state) = init_state.
Proof.
  exact (proj1 (cancel_transcription_once init_state) eq_refl).
Defined.

(** After [check_gpu] the device resolved by [get_device] is cuda only
    when the hardware is there, and cpu or cuda in every case where the
    selection was auto, cpu or cuda: the window never hands an
    unavailable device to the loader, whatever was selected before. *)
Theorem window_device_available (gpu_name : string) (s : State) :
  let s' := snd (check_gpu w gpu_name s) in
  let device := worker_device w (app s') in
  fst (get_device w s') = inr device
  /\ (device = "cuda" -> cuda_is_available w = true)
  /\ (device = "cpu" \/ device = "cuda").
Proof.
  intros s' device. subst device.
  destruct (check_gpu_offers w gpu_name s) as [Hvalues Hin]. fold s' in Hvalues, Hin.
  rewrite get_device_run. split; [reflexivity|].
  unfold worker_device. rewrite Hvalues in Hin.
  destruct (cuda_is_available w).
  - destruct Hin as [<-|[<-|[<-|[]]]]; cbn; auto.
  - destruct Hin as [<-|[<-|[]]]; cbn; split; auto; discriminate.
Qed.

(** A dismissed dialog leaves the window as it was; a chosen path
    becomes the input path, is logged in one line, and nothing else
    changes, so that Start is then accepted exactly when the path
    exists and no job is running. *)
Theorem select_then_start (file_path : string) (s : State) :
  let s' := snd (select_file file_path s) in
  (file_path = EmptyString -> s' = s)
  /\ (file_path <> EmptyString ->
      input_path (app s') = file_path
      /\ log_text (app s') = log_text (app s) ++ ["Selected file: " +:+ file_path]
      /\ fst (start_transcription w s')
         = inr (negb (processing (app s)) && path_exists w file_path)).
Proof.
  intros s'. subst s'. unfold select_file. split.
  - intros ->. reflexivity.
  - intros Hne. assert (Ht : Py.truthy file_path = true).
    { unfold Py.truthy. destruct (String.eqb_spec file_path EmptyString);
        [contradiction | reflexivity]. }
    rewrite Ht. cbn [bind modify log snd fst]. unfold bind, modify, log. cbn [snd].
    split; [reflexivity|]. split; [reflexivity|].
    destruct (start_transcription_cases
                (with_app (app_add_log ("Selected file: " +:+ file_path))
                   (with_app (app_set_input_path file_path) s))) as [Hret _].
    rewrite Hret.
    cbn [with_app app app_add_log app_set_input_path processing input_path].
    now rewrite Ht, andb_true_r.
Qed.

End Buttons.

Lemma select_then_start_witness :
  fst (start_transcription batch_world (snd (select_file "a.mp3" init_state)))
  = inr true.
Proof.
  exact (proj2 (proj2 (proj2 (select_then_start batch_world "a.mp3" init_state)
                         ltac:(discriminate)))).
Defined.

(** ** The estimator thread *)

Section Estimator.

Local Open Scope Q_scope.

Lemma advance_bounds (step : Q) :
  step + 0.05 <= advance step /\ advance step <= step + 0.5.
Proof.
  unfold advance. rewrite Qred_correct. unfold increment_for.
  destruct (Qlt_le_dec step 20); [split; lra|].
  destruct (Qlt_le_dec step 50); [split; lra|].
  destruct (Qlt_le_dec step 80); split; lra.
Qed.

(** The loop with enough turns left for the distance to 95. *)
Lemma simulate_progress_loop_halts (others : nat -> M unit) :
  (forall k, returns_unit (others k)) ->
  forall (fuel k : nat) (step : Q) (s : State),
    step < 95.5 ->
    95 - step <= 0.05 * inject_Z (Z.of_nat fuel) ->
    exists (final : Q) (s' : State),
      simulate_progress_loop (S fuel) others k step s = (inr (Some final), s')
      /\ step <= final /\ final < 95.5
      /\ (processing (app s') = false \/ 95 <= final).
Proof.
  intros Hothers. induction fuel as [|fuel IH]; intros k step s Hcap Hfuel.
  - change (inject_Z (Z.of_nat 0)) with 0 in Hfuel.
    cbn [simulate_progress_loop]. unfold bind at 1.
    specialize (Hothers k s). destruct (others k s) as [r s1]. cbn [fst] in Hothers.
    subst r. unfold bind at 1. unfold get at 1.
    destruct (Qlt_le_dec step 95) as [H|H]; [lra|]. rewrite andb_false_r.
    exists step, s1. repeat split; try lra; auto.
  - rewrite Nat2Z.inj_succ in Hfuel. unfold Z.succ in Hfuel.
    rewrite inject_Z_plus in Hfuel. change (inject_Z 1) with 1 in Hfuel.
    remember (S fuel) as n eqn:Hn.
    cbn [simulate_progress_loop]. unfold bind at 1.
    assert (Hk := Hothers k s). destruct (others k s) as [r s1]. cbn [fst] in Hk.
    subst r. unfold bind at 1. unfold get at 1.
    destruct (processing (app s1)) eqn:Hp; cbn [andb].
    + destruct (Qlt_le_dec step 95) as [H|H].
      * unfold bind at 1. unfold set_progress at 1. unfold modify at 1.
        fold (advance step). destruct (advance_bounds step) as [Hlo Hhi]. subst n.
        destruct (IH (S k) (advance step)
                    (with_app (app_set_progress (advance step)) s1)
                    ltac:(lra) ltac:(lra)) as (final & s' & Hrun & Hle & Hlt & Hend).
        exists final, s'. split; [exact Hrun|]. repeat split; try lra; exact Hend.
      * exists step, s1. repeat split; try lra; auto.
    + exists step, s1. repeat split; try lra; auto.
Qed.

(** Whatever the other threads do between two turns, as long as they
    do not raise, [simulate_progress] comes to an end within 1901 tests
    of its condition (each turn adds at least 0.05): the value it
    returns is below 95.5, and it is below 95 only when the flag was
    found cleared. *)
Theorem simulate_progress_halts (others : nat -> M unit) (s : State) :
  (forall k, returns_unit (others k)) ->
  exists (final : Q) (s' : State),
    simulate_progress 1901 others s = (inr (Some final), s')
    /\ 0 <= final /\ final < 95.5
    /\ (processing (app s') = false \/ 95 <= final).
Proof.
  intros Hothers. unfold simulate_progress, bind, set_progress, modify.
  destruct (simulate_progress_loop_halts others Hothers 1900 0 0
              (with_app (app_set_progress 0) s) ltac:(lra)
              ltac:(vm_compute; discriminate))
    as (final & s' & Hrun & Hle & Hlt & Hend).
  exists final, s'. split; [exact Hrun|]. repeat split; try lra; exact Hend.
Qed.

(** When the flag is found cleared at a test, the estimator writes
    nothing more: it leaves with the state the other threads left. *)
Theorem simulate_progress_stops_on_cancel (fuel k : nat) (step : Q)
    (others : nat -> M unit) (s s1 : State) :
  others k s = (inr tt, s1) ->
  processing (app s1) = false ->
  simulate_progress_loop (S fuel) others k step s = (inr (Some step), s1).
Proof.
  intros Hothers Hp. cbn [simulate_progress_loop]. unfold bind at 1.
  rewrite Hothers. unfold bind at 1. unfold get at 1. now rewrite Hp.
Qed.

End Estimator.

Lemma simulate_progress_halts_witness :
  exists (final : Q) (s' : State),
    simulate_progress 1901 (fun k => deliver (Nat.eqb k 3))
      (snd (start_transcription batch_world (chosen "d" "txt" "auto")))
    = (inr (Some final), s')
    /\ (final < 95.5)%Q.
Proof.
  destruct (simulate_progress_halts (fun k => deliver (Nat.eqb k 3))
              (snd (start_transcription batch_world (chosen "d" "txt" "auto")))
              ltac:(intros k s; rewrite deliver_run; reflexivity))
    as (final & s' & Hrun & _ & Hlt & _).
  exists final, s'. split; [exact Hrun | exact Hlt].
Defined.

Lemma simulate_progress_stops_on_cancel_witness :
  simulate_progress_loop 5 (fun k => deliver (Nat.eqb k 3)) 3 (1.5)%Q
    (snd (start_transcription batch_world (chosen "d" "txt" "auto")))
  = (inr (Some (1.5)%Q),
     cancelled (snd (start_transcription batch_world (chosen "d" "txt" "auto")))).
Proof.
  exact (simulate_progress_stops_on_cancel 4 3 (1.5)%Q (fun k => deliver (Nat.eqb k 3))
           (snd (start_transcription batch_world (chosen "d" "txt" "auto")))
           (cancelled (snd (start_transcription batch_world (chosen "d" "txt" "auto"))))
           eq_refl eq_refl).
Defined.

(** ** Enumerating a directory *)

Section Enumeration.

Variable w : World.

Lemma collect_fold (directory : string) (entries : list string) (acc : list string) :
  fold_left
    (fun audio_files file =>
       if is_audio file then audio_files ++ [Py.path_join directory file]
       else audio_files) entries acc
  = acc ++ map (Py.path_join directory) (List.filter is_audio entries).
Proof.
  revert acc. induction entries as [|file entries IH]; intros acc.
  - cbn. now rewrite app_nil_r.
  - cbn [fold_left List.filter]. rewrite IH.
    destruct (is_audio file); [|reflexivity].
    cbn [map]. now rewrite <- app_assoc.
Qed.

Lemma lower_char_idempotent (c : ascii) :
  Py.lower_char (Py.lower_char c) = Py.lower_char c.
Proof. destruct c as [[] [] [] [] [] [] [] []]; reflexivity. Qed.

Lemma lower_idempotent (s : string) : Py.lower (Py.lower s) = Py.lower s.
Proof.
  induction s as [|c s IH]; [reflexivity|].
  cbn [Py.lower]. now rewrite lower_char_idempotent, IH.
Qed.

(** The audio files of a directory are its entries whose name ends in
    one of the five extensions, whatever the case of the letters, each
    joined to the directory, in the order of the listing and without
    looking into sub-directories; an entry and its lower-case spelling
    are kept or left out alike. *)
Theorem collect_audio_files_filter (directory : string) :
  collect_audio_files w directory
  = map (Py.path_join directory) (List.filter is_audio (listdir w directory))
  /\ (forall file, is_audio (Py.lower file) = is_audio file)
  /\ (forall path,
        In path (collect_audio_files w directory) <->
        exists file, In file (listdir w directory)
                     /\ (exists ext, In ext audio_extensions
                                     /\ Py.endswith (Py.lower file) ext = true)
                     /\ path = Py.path_join directory file).
Proof.
  assert (Heq : collect_audio_files w directory
                = map (Py.path_join directory)
                    (List.filter is_audio (listdir w directory))).
  { unfold collect_audio_files. now rewrite collect_fold. }
  split; [exact Heq|]. split.
  - intros file. unfold is_audio. now rewrite lower_idempotent.
  - intros path. rewrite Heq, in_map_iff. split.
    + intros (file & <- & Hin). apply List.filter_In in Hin. destruct Hin as [Hin Ha].
      exists file. split; [exact Hin|]. split; [|reflexivity].
      unfold is_audio in Ha. apply existsb_exists in Ha. exact Ha.
    + intros (file & Hin & Hext & ->). exists file. split; [reflexivity|].
      apply List.filter_In. split; [exact Hin|].
      unfold is_audio. apply existsb_exists. exact Hext.
Qed.

End Enumeration.

(** ** What a timestamp says about the time *)

Section Reading.

Local Open Scope Q_scope.





Lemma nonneg_field_ranges (seconds : Q) :
  0 <= seconds ->
  (0 <= Py.int (seconds / 3600))%Z
  /\ (0 <= Py.int (Py.mod_ seconds 3600 / 60) <= 59)%Z
  /\ (0 <= Py.int (Py.mod_ seconds 60) <= 59)%Z
  /\ (0 <= Py.int ((seconds - inject_Z (Py.int seconds)) * 1000) <= 999)%Z.
Proof.
  intros Hs.
  assert (Hm3600 := mod_bounds seconds 3600 ltac:(lra)).
  assert (Hm60 := mod_bounds seconds 60 ltac:(lra)).
  assert (Hfrac := frac_bounds seconds).
  split.
  { rewrite int_floor by (apply Qle_shift_div_l; lra).
    rewrite <- (Qfloor_Z 0). apply Qfloor_resp_le.
    change (inject_Z 0) with 0. apply Qle_shift_div_l; lra. }
  split.
  { rewrite int_floor by (apply Qle_shift_div_l; lra). apply floor_bounds.
    - change (inject_Z 0) with 0. apply Qle_shift_div_l; lra.
    - apply Qlt_shift_div_r; [lra|]. change (inject_Z 59) with 59. lra. }
  split.
  { rewrite int_floor by lra. apply floor_bounds.
    - change (inject_Z 0) with 0. lra.
    - change (inject_Z 59) with 59. lra. }
  rewrite (int_floor seconds Hs). rewrite int_floor by lra. apply floor_bounds.
  - change (inject_Z 0) with 0. lra.
  - change (inject_Z 999) with 999. lra.
Qed.

(** Below a hundred hours a timestamp has twelve characters. *)
Theorem timestamp_length (seconds : Q) (output_format : string) :
  0 <= seconds -> seconds < 360000 ->
  String.length (format_timestamp seconds output_format) = 12%nat.
Proof.
  intros H0 H100.
  destruct (nonneg_field_ranges seconds H0) as (Hh & Hm & Hs & Hms).
  rewrite format_timestamp_fields. rewrite !append_length.
  rewrite (format_0d_2_length (Py.int (Py.mod_ seconds 3600 / 60))) by lia.
  rewrite (format_0d_2_length (Py.int (Py.mod_ seconds 60))) by lia.
  rewrite (format_0d_3_length _ Hms).
  assert (Hh' : (0 <= Py.int (seconds / 3600) <= 99)%Z).
  { split; [exact Hh|]. rewrite int_floor by (apply Qle_shift_div_l; lra).
    apply (floor_bounds (seconds / 3600) 0 99).
    - change (inject_Z 0) with 0. apply Qle_shift_div_l; lra.
    - apply Qlt_shift_div_r; [lra|]. change (inject_Z 99) with 99. lra. }
  rewrite (format_0d_2_length _ Hh').
  destruct (String.eqb output_format "srt"); reflexivity.
Qed.

Lemma timestamp_length_witness :
  String.length (format_timestamp 3661.25 "srt") = 12%nat.
Proof.
  exact (timestamp_length 3661.25 "srt" ltac:(vm_compute; discriminate)
           ltac:(vm_compute; reflexivity)).
Defined.

End Reading.

(** ** What one transcription writes *)

Section Outputs.

Variable w : World.



(** For a format outside the four, [transcribe_audio] writes nothing,
    and still returns the output path and prints that the transcription
    was saved there. *)
Theorem unknown_format_reported_saved (audio_path model_name output_format : string)
    (language device : option string) (result : Result) (s : State) :
  writes_file output_format = false ->
  load_model_error w model_name (cli_device w device) = None ->
  engine w model_name (cli_device w device) (String.eqb (cli_device w device) "cuda")
    (language_option language) audio_path = inr result ->
  let run := transcribe_audio w audio_path model_name output_format language device s in
  fst run = inr (output_path audio_path output_format)
  /\ fs (snd run) = fs s
  /\ stdout (snd run)
     = stdout s
       ++ ["Loading model: " +:+ model_name +:+ " on " +:+ cli_device w device;
           "Transcribing: " +:+ audio_path;
           "Transcription saved to: " +:+ output_path audio_path output_format].
Proof.
  intros Hw Hload Heng run. subst run. rewrite transcribe_audio_run. cbv zeta.
  rewrite Hload. unfold file_outcome. rewrite Heng, Hw. cbn [fst snd].
  rewrite written_open_error by exact Hw.
  split; [reflexivity|]. split; [reflexivity|].
  cbn [printed called with_stdout with_engine_calls stdout].
  now rewrite <- !app_assoc.
Qed.

(** The text of the output file when [transcribe_audio] returns, whatever
    was in the file before: the text of the result as it is for txt,
    the dump for json, and, for a vtt result with at least one segment,
    the WEBVTT line and an empty line followed by one block per
    segment, none of which carries a number. *)
Theorem output_text_by_format (audio_path model_name output_format : string)
    (language device : option string) (result : Result) (s : State) :
  load_model_error w model_name (cli_device w device) = None ->
  file_outcome w model_name (cli_device w device) output_format language audio_path
    = inr result ->
  let run := transcribe_audio w audio_path model_name output_format language device s in
  let text := fs (snd run) !! output_path audio_path output_format in
  (output_format = "txt" -> text = Some (res_text result))
  /\ (output_format = "json" -> text = Some (json_dump w result))
  /\ (output_format = "vtt" -> res_segments result <> [] ->
      text = Some ("WEBVTT" +:+ LF +:+ LF
                   +:+ vtt_blocks (res_segments result)))
  /\ (output_format = "srt" -> res_segments result = [] -> text = Some EmptyString).
Proof.
  intros Hload Hout run text. subst text run.
  rewrite transcribe_audio_run. cbv zeta. rewrite Hload, Hout. cbn [fst snd].
  change (fs (printed ?l ?x)) with (fs x). rewrite fs_written.
  split; [|split; [|split]].
  - intros ->. cbn. apply lookup_insert_eq.
  - intros ->. cbn. apply lookup_insert_eq.
  - intros -> Hne. unfold file_text.
    change (String.eqb "vtt" "txt") with false.
    change (String.eqb "vtt" "srt") with false.
    change (String.eqb "vtt" "vtt") with true. cbv iota.
    rewrite lookup_insert_eq. destruct (res_segments result); [contradiction|].
    reflexivity.
  - intros -> Hnil. unfold file_text.
    change (String.eqb "srt" "txt") with false.
    change (String.eqb "srt" "srt") with true. cbv iota.
    rewrite lookup_insert_eq, Hnil. reflexivity.
Qed.

End Outputs.

Lemma unknown_format_reported_saved_witness :
  let run := transcribe_audio (sample_world false (fun _ => inr two_segments) [])
               "a.mp3" "base" "pdf" None None init_state in
  fst run = inr "a.pdf" /\ fs (snd run) = fs init_state.
Proof.
  destruct (unknown_format_reported_saved
              (sample_world false (fun _ => inr two_segments) [])
              "a.mp3" "base" "pdf" None None two_segments init_state
              eq_refl eq_refl eq_refl) as (H1 & H2 & _).
  split; [exact H1 | exact H2].
Defined.

Lemma output_text_by_format_witness :
  fs (snd (transcribe_audio (sample_world false (fun _ => inr two_segments) [])
             "a.mp3" "base" "vtt" None None init_state)) !! "a.vtt"
  = Some ("WEBVTT" +:+ LF +:+ LF
          +:+ "00:00:00.000 --> 00:00:01.500" +:+ LF +:+ "hello" +:+ LF +:+ LF
          +:+ "01:01:01.250 --> 01:01:02.000" +:+ LF +:+ "world" +:+ LF +:+ LF).
Proof.
  exact (proj1 (proj2 (proj2
    (output_text_by_format (sample_world false (fun _ => inr two_segments) [])
       "a.mp3" "base" "vtt" None None two_segments init_state eq_refl eq_refl)))
    eq_refl ltac:(discriminate)).
Defined.

(** ** Jobs from start to end *)

Section Jobs.

Variable w : World.
Variable clicks : Clicks.

Lemma request_clicked (click : bool) (s : State) :
  request_of (app (clicked click s)) = request_of (app s).
Proof.
  unfold clicked, cancelled. destruct click; [|reflexivity].
  destruct (processing (app s)); reflexivity.
Qed.

Lemma request_logged (line : string) (s : State) :
  request_of (app (logged line s)) = request_of (app s).
Proof. reflexivity. Qed.

Lemma request_written (output_file output_format : string) (result : Result)
    (s : State) :
  request_of (app (written w output_file output_format result s)) = request_of (app s).
Proof. now rewrite app_written. Qed.

Lemma request_after_file (model_name output_format : string)
    (language : option string) (device : string) (total i : nat)
    (audio_file : string) (s : State) :
  request_of (app (after_file w clicks model_name output_format language device
                     total i audio_file s))
  = request_of (app s).
Proof.
  unfold after_file.
  destruct (file_outcome w model_name device output_format language audio_file);
    rewrite request_logged, ?request_written, request_clicked; reflexivity.
Qed.

Lemma request_loop (model_name output_format : string) (language : option string)
    (device : string) (total : nat) (files : list string) :
  forall (i : nat) (output_files : list string) (s : State),
    request_of (app (snd (App_batch_loop w clicks (model_name, device) output_format
                            language device total i files output_files s)))
    = request_of (app s).
Proof.
  induction files as [|f files IH]; intros i output_files s; [reflexivity|].
  rewrite App_batch_loop_step. cbv zeta.
  destruct (processing (app (clicked (click_before clicks i) s))); cbn [negb].
  - now rewrite IH, request_after_file, request_clicked.
  - cbn [snd]. apply request_clicked.
Qed.

Lemma request_pipeline (a : App) (s : State) :
  request_of (app (snd (pipeline w clicks a s))) = request_of (app s).
Proof.
  unfold pipeline. destruct (isdir w (input_path a)).
  - unfold bind. rewrite App_batch_transcribe_run.
    destruct (collect_audio_files w (input_path a)) as [|f files]; [reflexivity|].
    cbv zeta. destruct (load_model_error w (model_var a) (worker_device w a));
      [reflexivity|].
    set (s1 := logged _ (logged _ s)).
    assert (H := request_loop (model_var a) (format_var a) (worker_language a)
                   (worker_device w a) (length (f :: files)) (f :: files) 0 [] s1).
    destruct (App_batch_loop w clicks (model_var a, worker_device w a) (format_var a)
                (worker_language a) (worker_device w a) (length (f :: files)) 0
                (f :: files) [] s1) as [[e|o] s2]; exact H.
  - unfold bind. rewrite App_transcribe_audio_run. cbv zeta.
    destruct (load_model_error w (model_var a) (worker_device w a)); [reflexivity|].
    set (s2 := clicked (click_during clicks 0) _).
    assert (H2 : request_of (app s2) = request_of (app s))
      by (subst s2; now rewrite request_clicked).
    destruct (file_outcome w (model_var a) (worker_device w a) (format_var a)
                (worker_language a) (input_path a)) as [e|result];
      cbn [fst snd]; [exact H2|].
    unfold ret. cbn [snd]. now rewrite request_logged, request_written.
Qed.

Lemma request_finished (r : exn + unit) (s : State) :
  request_of (app (finished clicks r s)) = request_of (app s)
  /\ processing (app (finished clicks r s)) = false.
Proof.
  unfold finished. destruct r as [e|u].
  - split; reflexivity.
  - cbv zeta.
    destruct (processing (app (with_app (app_set_progress 100)
                                 (clicked (click_after clicks) s))));
      split; try reflexivity;
      exact (request_clicked (click_after clicks) s).
Qed.

(** The worker never raises and always ends with the flag cleared and
    with the entries of the window (path, model, format, language,
    device) as it found them; so once a job has ended, in whatever way,
    Start is accepted again as soon as the path is there. *)
Theorem job_end_allows_restart (s : State) :
  let s1 := snd (process_transcription w clicks s) in
  fst (process_transcription w clicks s) = inr tt
  /\ processing (app s1) = false
  /\ request_of (app s1) = request_of (app s)
  /\ fst (start_transcription w s1)
     = inr (Py.truthy (input_path (app s)) && path_exists w (input_path (app s))).
Proof.
  intros s1. subst s1. rewrite process_transcription_run. cbn [fst snd].
  set (run := pipeline w clicks (app s) (worker_start w s)).
  destruct (request_finished (fst run) (snd run)) as [Hreq Hoff].
  assert (Hreq' : request_of (app (finished clicks (fst run) (snd run)))
                  = request_of (app s)).
  { rewrite Hreq. subst run. now rewrite request_pipeline. }
  split; [reflexivity|]. split; [exact Hoff|]. split; [exact Hreq'|].
  destruct (start_transcription_cases w (finished clicks (fst run) (snd run)))
    as [Hret _].
  assert (Hpath : input_path (app (finished clicks (fst run) (snd run)))
                  = input_path (app s))
    by (unfold request_of in Hreq'; congruence).
  now rewrite Hret, Hoff, Hpath.
Qed.


(** In single file mode the flag is never tested: when Cancel is
    pressed while the engine is at work, the result is written all the
    same, and the job ends Cancelled at 100 with the output file in
    place. *)
Theorem single_file_cancel_still_writes (s : State) (result : Result) (text : string) :
  let a := app s in
  let final := snd (process_transcription w clicks s) in
  let output_file := output_path (input_path a) (format_var a) in
  processing a = true ->
  isdir w (input_path a) = false ->
  load_model_error w (model_var a) (worker_device w a) = None ->
  file_outcome w (model_var a) (worker_device w a) (format_var a) (worker_language a)
    (input_path a) = inr result ->
  file_text w (format_var a) result = Some text ->
  click_during clicks 0 = true ->
  job_state (app final) = Cancelled
  /\ progress_var (app final) = 100%Q
  /\ fs final !! output_file = Some text
  /\ engine_calls final = engine_calls s ++ [input_path a].
Proof.
  intros a final output_file Hp Hdir Hload Hout Htext Hclick. subst final.
  rewrite process_transcription_run. cbn [snd].
  unfold pipeline. fold a. rewrite Hdir. unfold bind.
  rewrite App_transcribe_audio_run. cbv zeta. rewrite Hload, Hout, Hclick.
  cbn [fst snd]. unfold ret. cbn [fst snd]. fold output_file.
  set (s0 := called (input_path a) _).
  assert (Hp0 : processing (app s0) = true) by exact Hp.
  set (s3 := logged _ (written w output_file (format_var a) result (clicked true s0))).
  assert (Hoff : processing (app s3) = false).
  { subst s3. unfold logged. cbn [with_app app app_add_log processing].
    rewrite app_written. apply processing_clicked_true. }
  assert (Hok : flag_ok s3).
  { subst s3. unfold flag_ok, logged.
    cbn [with_app app app_add_log processing status_var]. rewrite app_written.
    apply flag_ok_clicked. unfold flag_ok. congruence. }
  destruct (finished_returned clicks s3 Hok) as [Hj Hv].
  assert (Hoff' : processing (app (clicked (click_after clicks) s3)) = false).
  { unfold clicked, cancelled. destruct (click_after clicks); [|exact Hoff].
    now rewrite Hoff. }
  rewrite Hoff' in Hj. split; [exact Hj|]. split; [exact Hv|].
  unfold finished. cbv zeta. cbn [with_app app app_set_progress processing].
  rewrite Hoff'. cbn [with_app fs engine_calls].
  rewrite fs_clicked, engine_calls_clicked. subst s3.
  change (fs (logged ?l ?x)) with (fs x).
  change (engine_calls (logged ?l ?x)) with (engine_calls x).
  rewrite fs_written, Htext, engine_calls_written, engine_calls_clicked.
  split; [apply lookup_insert_eq | reflexivity].
Qed.


End Jobs.


Lemma single_file_cancel_still_writes_witness :
  let w := sample_world false (fun _ => inr two_segments) [] in
  let clicks := mkClicks (fun _ => false) (fun i => Nat.eqb i 0) false in
  let final := snd (process_transcription w clicks
                      (snd (start_transcription w (chosen "a.mp3" "txt" "auto")))) in
  job_state (app final) = Cancelled /\ fs final !! "a.txt" = Some " hello world".
Proof.
  intros w clicks final.
  destruct (single_file_cancel_still_writes w clicks
              (snd (start_transcription w (chosen "a.mp3" "txt" "auto")))
              two_segments " hello world"
              eq_refl eq_refl eq_refl eq_refl eq_refl eq_refl) as (H1 & _ & H3 & _).
  split; [exact H1 | exact H3].
Defined.


(** ** The two batches side by side *)

Section TwoBatches.

Variable w : World.
Variables model_name output_format : string.
Variable language : option string.
Variable device : string.

Abbreviation files_after := (batch_fs w model_name device output_format language).

Lemma fs_after_file (clicks : Clicks) (total i : nat) (f : string) (s : State) :
  fs (after_file w clicks model_name output_format language device total i f s)
  = files_after [f] (fs s).
Proof.
  unfold after_file. cbn [batch_fs].
  destruct (file_outcome w model_name device output_format language f) as [e|r].
  - change (fs (logged ?l ?x)) with (fs x). now rewrite fs_clicked.
  - change (fs (logged ?l ?x)) with (fs x). rewrite fs_written, fs_clicked.
    reflexivity.
Qed.

Lemma files_after_cons (f : string) (files : list string) (m : gmap string string) :
  files_after (f :: files) m = files_after files (files_after [f] m).
Proof. reflexivity. Qed.

Lemma fs_after_files (clicks : Clicks) (total : nat) (files : list string) :
  forall (i : nat) (s : State),
    fs (after_files w clicks model_name output_format language device total i files s)
    = files_after files (fs s).
Proof.
  induction files as [|f files IH]; intros i s; [reflexivity|].
  cbn [after_files]. now rewrite IH, fs_after_file, <- files_after_cons.
Qed.

Lemma fs_cli_after_file (f : string) (s : State) :
  fs (cli_after_file w model_name device output_format language f s)
  = files_after [f] (fs s)
  /\ engine_calls (cli_after_file w model_name device output_format language f s)
     = engine_calls s ++ [f].
Proof.
  unfold cli_after_file. cbn [batch_fs].
  destruct (file_outcome w model_name device output_format language f) as [e|r].
  - split; reflexivity.
  - change (fs (printed ?l ?x)) with (fs x).
    change (engine_calls (printed ?l ?x)) with (engine_calls x).
    rewrite fs_written, engine_calls_written. split; reflexivity.
Qed.

Lemma fs_batch_transcribe_loop (files : list string) :
  load_model_error w model_name device = None ->
  forall (output_files : list string) (s : State),
    let run := batch_transcribe_loop w model_name output_format language
                 (Some device) files output_files s in
    fs (snd run) = files_after files (fs s)
    /\ engine_calls (snd run) = engine_calls s ++ files.
Proof.
  intros Hload. induction files as [|f files IH]; intros output_files s run;
    subst run.
  - cbn. now rewrite app_nil_r.
  - rewrite batch_transcribe_loop_step by exact Hload.
    destruct (IH (output_files
                  ++ batch_outputs w model_name device output_format language [f])
                (cli_after_file w model_name device output_format language f s))
      as [Hfs Hcalls].
    destruct (fs_cli_after_file f s) as [Hfs1 Hcalls1].
    rewrite Hfs, Hcalls, Hfs1, Hcalls1, <- files_after_cons, <- app_assoc.
    split; reflexivity.
Qed.

(** When the model loads and Cancel is not pressed, the batch of the
    window and the batch of the command line do the same work on a
    directory: they return the same output paths, leave the same files
    with the same contents, and call the engine on the same files in
    the same order. *)
Theorem batches_agree (directory : string) (s : State) :
  processing (app s) = true ->
  load_model_error w model_name device = None ->
  let gui := App_batch_transcribe w no_clicks directory model_name output_format
               language device s in
  let cli := batch_transcribe w directory model_name output_format language
               (Some device) s in
  fst gui = fst cli
  /\ fs (snd gui) = fs (snd cli)
  /\ engine_calls (snd gui) = engine_calls (snd cli).
Proof.
  intros Hp Hload gui cli. subst gui cli.
  destruct (collect_audio_files w directory) as [|f files] eqn:Hfiles.
  { rewrite App_batch_transcribe_run. unfold batch_transcribe. rewrite Hfiles.
    repeat split. }
  assert (Hne : collect_audio_files w directory <> []) by (rewrite Hfiles; discriminate).
  rewrite App_batch_transcribe_files by assumption. cbv zeta.
  set (s1 := logged _ (logged _ s)).
  assert (Hp1 : processing (app s1) = true) by exact Hp.
  assert (Hgui : App_batch_loop w no_clicks (model_name, device) output_format
                   language device (length (collect_audio_files w directory)) 0
                   (collect_audio_files w directory) [] s1
                 = (inr (batch_outputs w model_name device output_format language
                           (collect_audio_files w directory)),
                    after_files w no_clicks model_name output_format language device
                      (length (collect_audio_files w directory)) 0
                      (collect_audio_files w directory) s1)).
  { rewrite <- (app_nil_r (collect_audio_files w directory)) at 2.
    now rewrite (App_batch_loop_quiet w no_clicks model_name output_format language
                   device _ (collect_audio_files w directory) [] 0 [] s1 Hp1
                   (quiet_no_clicks 0 _)). }
  rewrite Hgui. cbn [fst snd].
  destruct (batch_transcribe_run w directory model_name output_format language device
              s Hne Hload) as [Hret _].
  assert (Hcli : batch_transcribe w directory model_name output_format language
                   (Some device) s
                 = batch_transcribe_loop w model_name output_format language
                     (Some device) (collect_audio_files w directory) []
                     (printed ("Found " +:+ Py.decimal
                                 (N.of_nat (length (collect_audio_files w directory)))
                               +:+ " audio files to process") s)).
  { unfold batch_transcribe. rewrite Hfiles. reflexivity. }
  destruct (fs_batch_transcribe_loop (collect_audio_files w directory) Hload []
              (printed ("Found " +:+ Py.decimal
                          (N.of_nat (length (collect_audio_files w directory)))
                        +:+ " audio files to process") s)) as [Hfs Hcalls].
  rewrite <- Hcli in Hfs, Hcalls.
  rewrite Hret, Hfs, Hcalls.
  rewrite fs_after_files, engine_calls_after_files.
  repeat split.
Qed.

End TwoBatches.

Lemma batches_agree_witness :
  let s := snd (start_transcription batch_world (chosen "d" "srt" "auto")) in
  fst (App_batch_transcribe batch_world no_clicks "d" "base" "srt" None "cpu" s)
  = fst (batch_transcribe batch_world "d" "base" "srt" None (Some "cpu") s).
Proof.
  exact (proj1 (batches_agree batch_world "base" "srt" None "cpu" "d"
                  (snd (start_transcription batch_world (chosen "d" "srt" "auto")))
                  eq_refl eq_refl)).
Defined.

(** ** A model that does not load *)

Section LoadFailure.

Variable w : World.
Variables model_name output_format : string.
Variable language : option string.
Variable device : string.
Variable e : exn.
Hypothesis Hload : load_model_error w model_name device = Some e.

Lemma batch_transcribe_loop_load_failure (files : list string) :
  forall (output_files : list string) (s : State),
    let run := batch_transcribe_loop w model_name output_format language
                 (Some device) files output_files s in
    fst run = inr output_files
    /\ fs (snd run) = fs s
    /\ engine_calls (snd run) = engine_calls s
    /\ stdout (snd run)
       = stdout s
         ++ flat_map (fun f => ["Loading model: " +:+ model_name +:+ " on " +:+ device;
                                error_line f e]) files.
Proof.
  induction files as [|f files IH]; intros output_files s run; subst run.
  - cbn. now rewrite app_nil_r.
  - assert (Hstep : batch_transcribe_loop w model_name output_format language
                      (Some device) (f :: files) output_files s
                    = batch_transcribe_loop w model_name output_format language
                        (Some device) files output_files
                        (printed (error_line f e)
                           (printed ("Loading model: " +:+ model_name +:+ " on "
                                     +:+ device) s))).
    { cbn [batch_transcribe_loop]. unfold bind at 1. unfold try_except.
      unfold bind at 1. rewrite transcribe_audio_run. cbn [cli_device].
      rewrite Hload. reflexivity. }
    rewrite Hstep.
    destruct (IH output_files
                (printed (error_line f e)
                   (printed ("Loading model: " +:+ model_name +:+ " on " +:+ device) s)))
      as (H1 & H2 & H3 & H4).
    rewrite H1, H2, H3, H4. repeat split.
    cbn [flat_map printed with_stdout stdout List.app]. now rewrite <- !app_assoc.
Qed.

Lemma error_lines_of_load_failures (files : list string) :
  List.filter is_error_line
    (flat_map (fun f => ["Loading model: " +:+ model_name +:+ " on " +:+ device;
                         error_line f e]) files)
  = map (fun f => error_line f e) files.
Proof.
  induction files as [|f files IH]; [reflexivity|].
  cbn [flat_map List.app List.filter map].
  change (is_error_line ("Loading model: " +:+ _)) with false. cbv iota.
  rewrite is_error_line_error_line. f_equal. apply IH.
Qed.

(** When the model cannot be loaded, the two batches part ways.  The
    window loads the model once, before the loop: the job ends Failed
    without a call to the engine.  The command line loads it for every
    file, inside the try block: the failure is printed once per file
    and the batch returns normally with an empty list. *)
Theorem load_failure_in_batch (clicks : Clicks) (s : State) :
  let a := app s in
  let final := snd (process_transcription w clicks s) in
  let cli := batch_transcribe w (input_path a) model_name output_format language
               (Some device) s in
  processing a = true ->
  isdir w (input_path a) = true ->
  collect_audio_files w (input_path a) <> [] ->
  model_var a = model_name -> worker_device w a = device ->
  job_state (app final) = Failed
  /\ engine_calls final = engine_calls s
  /\ fs final = fs s
  /\ fst cli = inr []
  /\ engine_calls (snd cli) = engine_calls s
  /\ List.filter is_error_line (stdout (snd cli))
     = List.filter is_error_line (stdout s)
       ++ map (fun f => error_line f e) (collect_audio_files w (input_path a)).
Proof.
  intros a final cli Hp Hdir Hne Hmodel Hdevice. subst final cli.
  split; [|split; [|split]].
  1-3: rewrite process_transcription_run; cbn [snd];
       unfold pipeline; fold a; rewrite Hdir; unfold bind;
       rewrite App_batch_transcribe_run;
       destruct (collect_audio_files w (input_path a)) as [|f files];
       [contradiction|]; cbv zeta; rewrite Hmodel, Hdevice, Hload; reflexivity.
  assert (Hcli : batch_transcribe w (input_path a) model_name output_format language
                   (Some device) s
                 = batch_transcribe_loop w model_name output_format language
                     (Some device) (collect_audio_files w (input_path a)) []
                     (printed ("Found " +:+ Py.decimal
                                 (N.of_nat (length (collect_audio_files w
                                                      (input_path a))))
                               +:+ " audio files to process") s)).
  { unfold batch_transcribe.
    destruct (collect_audio_files w (input_path a)); [contradiction | reflexivity]. }
  rewrite Hcli.
  destruct (batch_transcribe_loop_load_failure (collect_audio_files w (input_path a))
              [] (printed ("Found " +:+ Py.decimal
                             (N.of_nat (length (collect_audio_files w (input_path a))))
                           +:+ " audio files to process") s)) as (H1 & _ & H3 & H4).
  split; [exact H1|]. split; [exact H3|]. rewrite H4.
  cbn [printed with_stdout stdout]. rewrite !List.filter_app. cbn [List.filter].
  change (is_error_line ("Found " +:+ _)) with false. cbv iota.
  rewrite app_nil_r. f_equal. apply error_lines_of_load_failures.
Qed.

End LoadFailure.

Lemma load_failure_in_batch_witness :
  let w := mkWorld false (fun _ _ => Some corrupt) (fun _ _ _ _ _ => inr two_segments)
             (fun _ => None) (fun r => res_text r) (fun _ => ["a.mp3"; "b.wav"])
             (fun _ => true) (fun _ => false) (fun _ => true) in
  let s := snd (start_transcription w (chosen "d" "txt" "auto")) in
  job_state (app (snd (process_transcription w no_clicks s))) = Failed
  /\ fst (batch_transcribe w "d" "base" "txt" None (Some "cpu") s) = inr [].
Proof.
  intros w s.
  destruct (load_failure_in_batch w "base" "txt" None "cpu" corrupt eq_refl no_clicks s
              eq_refl eq_refl ltac:(discriminate) eq_refl eq_refl)
    as (H1 & _ & _ & H4 & _).
  split; [exact H1 | exact H4].
Defined.

(** ** The command line *)

Section CommandLine.

Variable w : World.


End CommandLine.


(** ** The endpoint, further *)

Section EndpointMore.

Variable w : World.

(** As [app.py] stands, without an import of torch, no request is
    served: a request with a file raises NameError and one without
    raises on the missing field, in both cases before anything is
    saved, loaded or removed. *)
Theorem endpoint_as_written_serves_nothing (req : Request) (s : State) :
  exists e, Web_transcribe w None req s = (inl e, s)
            /\ (req_file req <> None -> exn_kind e = "NameError").
Proof.
  unfold Web_transcribe. destruct (req_file req) as [[name payload]|].
  - eexists. split; [reflexivity | reflexivity].
  - eexists. split; [reflexivity | congruence].
Qed.

(** With torch provided, a request that is served leaves no trace in the
    scratch directory: the response is the text of the result whatever
    format was asked for, the engine is called once on the scratch
    path, and the files are those from before without the scratch
    path, so that a file already there under the name of the upload is
    gone as well.  A request without a file raises before anything is
    saved. *)
Theorem endpoint_success (cuda : bool) (req : Request) (name payload : string)
    (result : Result) (s : State) :
  let model_name := match req_model req with Some m => m | None => "base" end in
  let device := if cuda then "cuda" else "cpu" in
  let file_path := "temp/" +:+ name in
  let run := Web_transcribe w (Some cuda) req s in
  req_file req = Some (name, payload) ->
  open_error w file_path = None ->
  load_model_error w model_name device = None ->
  engine w model_name device true None file_path = inr result ->
  fst run = inr (res_text result)
  /\ fs (snd run) = delete file_path (fs s)
  /\ engine_calls (snd run) = engine_calls s ++ [file_path]
  /\ (forall req', req_file req' = None ->
        exists e, Web_transcribe w (Some cuda) req' s = (inl e, s)).
Proof.
  intros model_name device file_path run Hfile Hopen Hload Heng. subst run.
  rewrite (Web_transcribe_run w cuda req name payload s Hfile).
  fold model_name device file_path. rewrite Hopen, Hload, Heng. cbn [fst snd].
  split; [reflexivity|]. split; [|split; [reflexivity|]].
  - cbn [with_fs called with_engine_calls fs]. apply delete_insert_eq.
  - intros req' Hnone. unfold Web_transcribe. rewrite Hnone.
    eexists. reflexivity.
Qed.

End EndpointMore.

Lemma endpoint_success_witness :
  let run := Web_transcribe (sample_world false (fun _ => inr two_segments) [])
               (Some false) (mkRequest (Some ("a.mp3", "RIFF")) None (Some "srt"))
               init_state in
  fst run = inr " hello world" /\ fs (snd run) = delete "temp/a.mp3" ∅.
Proof.
  destruct (endpoint_success (sample_world false (fun _ => inr two_segments) [])
              false (mkRequest (Some ("a.mp3", "RIFF")) None (Some "srt"))
              "a.mp3" "RIFF" two_segments init_state eq_refl eq_refl eq_refl eq_refl)
    as (H1 & H2 & _).
  split; [exact H1 | exact H2].
Defined.

(** ** Two inputs with one output *)

Section SameStem.

Variable w : World.

(** Two audio files that differ only in their extension share their
    output path: in a batch that transcribes both, the path is returned
    twice and the file holds the text of the later one only. *)
Theorem same_stem_overwrites (model_name output_format : string)
    (language : option string) (device : string) (f1 f2 : string)
    (r1 r2 : Result) (t1 t2 : string) (s : State) :
  Py.splitext_root f1 = Py.splitext_root f2 ->
  load_model_error w model_name device = None ->
  file_outcome w model_name device output_format language f1 = inr r1 ->
  file_outcome w model_name device output_format language f2 = inr r2 ->
  file_text w output_format r1 = Some t1 ->
  file_text w output_format r2 = Some t2 ->
  let run := batch_transcribe_loop w model_name output_format language (Some device)
               [f1; f2] [] s in
  fst run = inr [output_path f2 output_format; output_path f2 output_format]
  /\ fs (snd run) !! output_path f2 output_format = Some t2
  /\ engine_calls (snd run) = engine_calls s ++ [f1; f2].
Proof.
  intros Hstem Hload H1 H2 Ht1 Ht2 run. subst run.
  destruct (batch_transcribe_loop_run w model_name output_format language device
              [f1; f2] Hload [] s) as [Hret _].
  destruct (fs_batch_transcribe_loop w model_name output_format language device
              [f1; f2] Hload [] s) as [Hfs Hcalls].
  rewrite Hret, Hfs, Hcalls. cbn [batch_outputs batch_fs List.app].
  rewrite H1, H2, Ht1, Ht2.
  assert (Hout : output_path f1 output_format = output_path f2 output_format)
    by (unfold output_path; now rewrite Hstem).
  rewrite Hout. split; [reflexivity|]. split; [apply lookup_insert_eq | reflexivity].
Qed.

(** A window that has just been opened: the log holds the one line
    about the hardware, no job is running, and Start is refused with
    the request to select a file, since no path is entered yet. *)
Theorem fresh_window_refuses_start (gpu_name : string) :
  let s := App_init w gpu_name in
  log_text (app s)
  = [if cuda_is_available w then "GPU available: " +:+ gpu_name
     else "GPU not available, using CPU"]
  /\ device_var (app s) = "auto"
  /\ processing (app s) = false
  /\ start_transcription w s
     = (inr false,
        with_app (app_add_dialog
                    (showerror "Error"
                       "Please select an audio file or directory first!")) s).
Proof.
  unfold App_init, check_gpu, check_gpu_availability.
  destruct (cuda_is_available w); cbn; repeat split.
Qed.

End SameStem.

Lemma same_stem_overwrites_witness :
  let w := sample_world false
             (fun p => if String.eqb p "d/a.mp3" then inr two_segments
                       else inr negative_start) [] in
  let run := batch_transcribe_loop w "base" "txt" None (Some "cpu")
               ["d/a.mp3"; "d/a.wav"] [] init_state in
  fst run = inr ["d/a.txt"; "d/a.txt"] /\ fs (snd run) !! "d/a.txt" = Some "hi".
Proof.
  intros w run.
  destruct (same_stem_overwrites w "base" "txt" None "cpu" "d/a.mp3" "d/a.wav"
              two_segments negative_start " hello world" "hi" init_state
              eq_refl eq_refl eq_refl eq_refl eq_refl eq_refl) as (H1 & H2 & _).
  split; [exact H1 | exact H2].
Defined.
